(** * Verification of the slidesolve backend ([main.py]).

    Shallow embedding of the FastAPI handlers of [main.py]: text extraction,
    question generation, answer submission and grading ([get_results]).

    Modelling conventions.
    - Values produced by [json.loads] are [json] trees; a JSON object is a
      Python [dict], modelled as an association list.
    - Python exceptions are the constructors of [exn]; a handler body runs in
      the error monad [res].
    - The process-wide dicts [question_bank] and [student_answers] are the
      two fields of [state], passed explicitly.
    - Strings are ASCII [string]s: [str.strip] removes the ASCII characters
      that Python's [str.isspace] accepts, [str.lower] maps A-Z to a-z.
    - The float [(correct / total) * 100] is an IEEE binary64 value
      ([spec_float] of the Standard Library with 53 bits of precision),
      computed by the two correctly rounded operations CPython performs;
      [f"{score:.1f}"] then rounds the exact value of that double.
    - The version of the OpenAI client is a parameter, [has_openai_error]:
      the handler's [except] clause names [openai.error], a module of the
      clients before 1.0, while the requirements pin openai==1.3.6. *)

From Stdlib Require Import String Ascii List Bool Arith ZArith QArith Lia.
From Stdlib Require Import SpecFloat.
Import ListNotations.
Set Warnings "-register-all".
Open Scope list_scope.
Open Scope string_scope.
Open Scope nat_scope.

(** ** JSON values and Python exceptions *)

Inductive json : Type :=
| JNull
| JBool (b : bool)
| JNum (q : Q)
| JStr (s : string)
| JArr (l : list json)
| JObj (kvs : list (string * json)).

Inductive exn : Type :=
| KeyError
| TypeError
| AttributeError
| ValueError (msg : string)
| DecoderError                 (* raised by fitz / python-pptx / python-docx *)
| AuthenticationError          (* raised by the OpenAI client *)
| OpenAIError                  (* any other failure of the OpenAI client *)
(* [HTTPException(status_code=c, detail=d)] *)
| HTTPException (status_code : nat) (detail : string)
(* [HTTPException(status_code=c, detail=prefix + str(cause))] *)
| HTTPExceptionFrom (status_code : nat) (prefix : string) (cause : exn).

(** Both HTTPException constructors are instances of [HTTPException]. *)
Definition is_http_exception (e : exn) : bool :=
  match e with
  | HTTPException _ _ | HTTPExceptionFrom _ _ _ => true
  | _ => false
  end.

(** The HTTP status FastAPI answers with when a handler raises [e]. *)
Definition status_code_of (e : exn) : nat :=
  match e with
  | HTTPException c _ | HTTPExceptionFrom c _ _ => c
  | _ => 500
  end.

(** ** The error monad *)

Inductive res (A : Type) : Type :=
| Ok (a : A)
| Raise (e : exn).
Arguments Ok {A} a.
Arguments Raise {A} e.

Definition bind {A B} (m : res A) (k : A -> res B) : res B :=
  match m with
  | Ok a => k a
  | Raise e => Raise e
  end.

Notation "x <- m ;; k" := (bind m (fun x => k))
  (at level 61, m at next level, right associativity).

(** [try: m  except Exception as e: h(e)] *)
Definition try_except {A} (m : res A) (h : exn -> res A) : res A :=
  match m with
  | Ok a => Ok a
  | Raise e => h e
  end.

Fixpoint mapM {A B} (f : A -> res B) (l : list A) : res (list B) :=
  match l with
  | [] => Ok []
  | x :: xs => y <- f x ;; ys <- mapM f xs ;; Ok (y :: ys)
  end.

(** ** Python dicts *)

(** [d[k]] / [d.get(k)] on a dict held as an association list; for a
    parsed JSON object with a repeated key the last value wins, as in
    [json.loads]. *)
Definition assoc_get {A} (k : string) (kvs : list (string * A)) : option A :=
  fold_left (fun acc kv => if String.eqb (fst kv) k then Some (snd kv) else acc)
    kvs None.

(** [d[k] = v]: an existing key keeps its position, a new key is appended. *)
Fixpoint assoc_set {A} (k : string) (v : A) (kvs : list (string * A))
  : list (string * A) :=
  match kvs with
  | [] => [(k, v)]
  | (k', v') :: rest =>
      if String.eqb k' k then (k, v) :: rest else (k', v') :: assoc_set k v rest
  end.

(** [question[k]] for a string key [k]. *)
Definition subscript (d : json) (k : string) : res json :=
  match d with
  | JObj kvs =>
      match assoc_get k kvs with
      | Some v => Ok v
      | None => Raise KeyError
      end
  | _ => Raise TypeError
  end.

(** [d.get(key, default)]: [d] must be a dict; lists and dicts are
    unhashable keys; a number, bool or [None] key never equals a string key
    of a JSON object. *)
Definition dict_get (d : json) (key : json) (default : json) : res json :=
  match d with
  | JObj kvs =>
      match key with
      | JStr k =>
          match assoc_get k kvs with
          | Some v => Ok v
          | None => Ok default
          end
      | JArr _ | JObj _ => Raise TypeError
      | _ => Ok default
      end
  | _ => Raise AttributeError
  end.

(** [for x in v]: a list yields its items, a string its characters, a dict
    its keys; anything else is not iterable. *)
Definition iterate (v : json) : res (list json) :=
  match v with
  | JArr l => Ok l
  | JStr s => Ok (map (fun c => JStr (String c EmptyString)) (list_ascii_of_string s))
  | JObj kvs => Ok (map (fun kv => JStr (fst kv)) kvs)
  | _ => Raise TypeError
  end.

(** A method of [str] called on [v]: any other value has no such attribute. *)
Definition as_str (v : json) : res string :=
  match v with
  | JStr s => Ok s
  | _ => Raise AttributeError
  end.

(** ** [str.strip] and [str.lower] *)

(** [c.isspace()] on ASCII: \t \n \v \f \r, the separators 0x1c-0x1f and
    the space. *)
Definition is_space (c : ascii) : bool :=
  let n := nat_of_ascii c in
  ((9 <=? n) && (n <=? 13)) || ((28 <=? n) && (n <=? 32)).

Fixpoint lstrip_list (l : list ascii) : list ascii :=
  match l with
  | [] => []
  | c :: rest => if is_space c then lstrip_list rest else l
  end.

Definition strip (s : string) : string :=
  string_of_list_ascii
    (rev (lstrip_list (rev (lstrip_list (list_ascii_of_string s))))).

Definition lower_char (c : ascii) : ascii :=
  let n := nat_of_ascii c in
  if (65 <=? n) && (n <=? 90) then ascii_of_nat (n + 32) else c.

Definition upper_char (c : ascii) : ascii :=
  let n := nat_of_ascii c in
  if (97 <=? n) && (n <=? 122) then ascii_of_nat (n - 32) else c.

Definition lower (s : string) : string :=
  string_of_list_ascii (map lower_char (list_ascii_of_string s)).

Definition upper (s : string) : string :=
  string_of_list_ascii (map upper_char (list_ascii_of_string s)).

(** ** Number formatting: [f"{score:.1f}"] *)

Fixpoint digits_aux (fuel n : nat) (acc : string) : string :=
  match fuel with
  | 0 => acc
  | S f =>
      let acc' := String (ascii_of_nat (48 + n mod 10)) acc in
      if n <? 10 then acc' else digits_aux f (n / 10) acc'
  end.

(** Decimal digits of [n]. *)
Definition string_of_nat (n : nat) : string := digits_aux (S n) n "".

(** [x] rounded to the nearest integer, ties to even, for [x = a / b]
    with [0 <= a], [0 < b]. *)
Definition round_half_even (a b : Z) : Z :=
  let fl := (a / b)%Z in
  let r := (a mod b)%Z in
  if (2 * r <? b)%Z then fl
  else if (b <? 2 * r)%Z then (fl + 1)%Z
  else if Z.even fl then fl else (fl + 1)%Z.

(** The [.1f] rendering of a non-negative number: the value times ten is
    rounded half to even, then printed with one decimal.  CPython formats
    a float from its exact binary value, correctly rounded with ties to
    even, so [fmt1] is applied to the exact rational value of the double. *)
Definition fmt1 (q : Q) : string :=
  let tenths := Z.to_nat (round_half_even (Qnum q * 10) (Zpos (Qden q))) in
  string_of_nat (tenths / 10) ++ "." ++ string_of_nat (tenths mod 10).

(** ** Binary64 arithmetic: [(correct / total) * 100] *)

(** IEEE binary64: 53 bits of precision, largest exponent 1024. *)
Definition prec64 : Z := 53.
Definition emax64 : Z := 1024.

(** A Python [int] below [2^53] converts to the double of the same value. *)
Definition float_exact (n : nat) : spec_float :=
  match n with
  | 0 => S754_zero false
  | S n' => S754_finite false (Pos.of_succ_nat n') 0
  end.

(** [a / b] on two [int]s: CPython's true division returns the correctly
    rounded (ties to even) quotient, which is what [SFdiv] computes on the
    two exactly converted operands. *)
Definition int_truediv (a b : nat) : spec_float :=
  SFdiv prec64 emax64 (float_exact a) (float_exact b).

(** The literal [100], converted to a double for [x * 100]. *)
Definition float_100 : spec_float := binary_normalize prec64 emax64 100 0 false.

(** The exact rational value of a finite double (infinities and NaN do
    not arise here). *)
Definition Q_of_float (x : spec_float) : Q :=
  match x with
  | S754_finite s m e =>
      let v := match e with
               | Zneg k => (Zpos m # Pos.pow 2 k)%Q
               | _ => inject_Z (Zpos m * 2 ^ e)%Z
               end in
      if s then Qopp v else v
  | _ => 0%Q
  end.

(** A double that is [+0] or a positive finite [m * 2^e] with [e <= f] and
    [m * 2^e <= K * 2^f]. *)
Definition below (K f : Z) (x : spec_float) : Prop :=
  match x with
  | S754_zero s => s = false
  | S754_finite s m e => s = false /\ (e <= f)%Z /\ (Zpos m <= K * 2 ^ (f - e))%Z
  | _ => False
  end.

(** ** Grading: [get_results] *)

(** One entry of the ["feedback"] list. *)
Record mismatch : Type := mkMismatch {
  m_question : json;          (* question["question"] *)
  your_answer : string;       (* the normalised submitted answer *)
  correct_answer : string     (* the normalised canonical answer *)
}.

(** The dict returned by [get_results]. *)
Record grading_result : Type := mkResult {
  score : string;
  correct : nat;
  total : nat;
  feedback : list mismatch;
  suggestions : list string
}.

Definition mismatch_to_json (m : mismatch) : json :=
  JObj [("question", m_question m); ("your_answer", JStr (your_answer m));
        ("correct_answer", JStr (correct_answer m))].

(** The JSON body FastAPI serialises from the returned dict. *)
Definition result_to_json (r : grading_result) : json :=
  JObj [("score", JStr (score r));
        ("correct", JNum (inject_Z (Z.of_nat (correct r))));
        ("total", JNum (inject_Z (Z.of_nat (total r))));
        ("feedback", JArr (map mismatch_to_json (feedback r)));
        ("suggestions", JArr (map JStr (suggestions r)))].

Definition q_types : list string := ["multiple_choice"; "fill_in"; "short_answer"].

(** [x.strip().lower()] *)
Definition normalize (s : string) : string := lower (strip s).

(** Lines 237-247 for one [question]: [None] when the answer is correct,
    the feedback entry otherwise. *)
Definition grade_one (answers question : json) : res (option mismatch) :=
  key <- subscript question "question" ;;
  ua <- dict_get answers key (JStr "") ;;
  ua_s <- as_str ua ;;
  let user_answer := normalize ua_s in
  ca <- subscript question "answer" ;;
  ca_s <- as_str ca ;;
  let correct_answer := normalize ca_s in
  Ok (if String.eqb user_answer correct_answer then None
      else Some (mkMismatch key user_answer correct_answer)).

(** The loop counters [correct], [total] and [feedback]. *)
Record acc : Type := mkAcc { a_correct : nat; a_total : nat; a_feedback : list mismatch }.

(** The inner loop [for question in ...]. *)
Fixpoint grade_questions (answers : json) (qs : list json) (a : acc) : res acc :=
  match qs with
  | [] => Ok a
  | question :: rest =>
      o <- grade_one answers question ;;
      let a' :=
        match o with
        | None => mkAcc (S (a_correct a)) (S (a_total a)) (a_feedback a)
        | Some m => mkAcc (a_correct a) (S (a_total a)) (a_feedback a ++ [m])%list
        end in
      grade_questions answers rest a'
  end.

(** [questions.get("questions", {}).get(q_type, [])], iterated. *)
Definition questions_of (questions : json) (q_type : string) : res (list json) :=
  root <- dict_get questions (JStr "questions") (JObj []) ;;
  v <- dict_get root (JStr q_type) (JArr []) ;;
  iterate v.

(** The outer loop [for q_type in [...]]. *)
Fixpoint grade_types (questions answers : json) (types : list string) (a : acc)
  : res acc :=
  match types with
  | [] => Ok a
  | q_type :: rest =>
      qs <- questions_of questions q_type ;;
      a' <- grade_questions answers qs a ;;
      grade_types questions answers rest a'
  end.

(** [score = (correct / total) * 100 if total > 0 else 0] *)
Definition score_value (correct total : nat) : Q :=
  if 0 <? total then
    Q_of_float (SFmul prec64 emax64 (int_truediv correct total) float_100)
  else 0%Q.

Definition Qltb (x y : Q) : bool := negb (Qle_bool y x).

Definition low_tier : list string :=
  ["Focus on fundamental concepts"; "Review chapter summaries";
   "Practice basic definitions"].
Definition mid_tier : list string :=
  ["Work on application problems"; "Practice time management";
   "Review diagrams and charts"].
Definition high_tier : list string :=
  ["Excellent performance!"; "Challenge yourself with advanced problems";
   "Help peers with difficult concepts"].

(** Lines 251-270. *)
Definition suggestions_for (score : Q) : list string :=
  if Qltb score 50 then low_tier
  else if Qltb score 75 then mid_tier
  else high_tier.

(** The two process-wide dicts. *)
Record state : Type := mkState {
  question_bank : list (string * json);
  student_answers : list (string * json)
}.

(** [d.get(filename, {})] on a store. *)
Definition store_get (d : list (string * json)) (filename : string) : json :=
  match assoc_get filename d with
  | Some v => v
  | None => JObj []
  end.

(** [GET /results/{filename}]. *)
Definition get_results (st : state) (filename : string) : res grading_result :=
  let questions := store_get (question_bank st) filename in
  let answers := store_get (student_answers st) filename in
  try_except
    (a <- grade_types questions answers q_types (mkAcc 0 0 []) ;;
     let score := score_value (a_correct a) (a_total a) in
     Ok (mkResult (fmt1 score ++ "%") (a_correct a) (a_total a)
                  (firstn 5 (a_feedback a)) (suggestions_for score)))
    (fun e => Raise (HTTPExceptionFrom 500 "Failed to generate results: " e)).

(** ** The grading loop read as one pass over the whole exam *)

(** All questions of the exam, in the order the loops visit them. *)
Fixpoint exam_questions_types (questions : json) (types : list string)
  : res (list json) :=
  match types with
  | [] => Ok []
  | q_type :: rest =>
      qs <- questions_of questions q_type ;;
      qs' <- exam_questions_types questions rest ;;
      Ok (qs ++ qs')%list
  end.

Definition exam_questions (st : state) (filename : string) : res (list json) :=
  exam_questions_types (store_get (question_bank st) filename) q_types.

Definition answers_of (st : state) (filename : string) : json :=
  store_get (student_answers st) filename.

(** The outcome of every question, in question order. *)
Definition grade_all (answers : json) (qs : list json) : res (list (option mismatch)) :=
  mapM (grade_one answers) qs.

Fixpoint count_correct (outs : list (option mismatch)) : nat :=
  match outs with
  | [] => 0
  | None :: rest => S (count_correct rest)
  | Some _ :: rest => count_correct rest
  end.

(** The incorrect questions' entries, in question order. *)
Fixpoint mismatches (outs : list (option mismatch)) : list mismatch :=
  match outs with
  | [] => []
  | None :: rest => mismatches rest
  | Some m :: rest => m :: mismatches rest
  end.

(** The outcome of one question with prompt [key], submitted answer [ua]
    and canonical answer [canon]. *)
Definition outcome (key : json) (ua canon : string) : option mismatch :=
  if String.eqb (normalize ua) (normalize canon) then None
  else Some (mkMismatch key (normalize ua) (normalize canon)).

(** ** Upload, extraction, generation and submission *)

Definition bytes : Type := list Byte.byte.

(** Calls made to external libraries and services, recorded in order. *)
Inductive call : Type :=
| CallFitzOpen (b : bytes)             (* fitz.open(stream=b, filetype="pdf") *)
| CallPresentation (b : bytes)         (* Presentation(io.BytesIO(b)) *)
| CallDocument (b : bytes)             (* Document(io.BytesIO(b)) *)
| CallChatCompletion (text : string).  (* the prompt built around text[:3000] *)

(** A computation that records its external calls and may raise. *)
Definition M (A : Type) : Type := (list call * res A)%type.

Definition SUPPORTED_EXTENSIONS : list string := ["pdf"; "docx"; "pptx"; "ppt"].

Definition supported (extension : string) : bool :=
  existsb (String.eqb extension) SUPPORTED_EXTENSIONS.

Fixpoint last_segment (l : list ascii) (cur : list ascii) : list ascii :=
  match l with
  | [] => cur
  | c :: rest =>
      if Ascii.eqb c "." then last_segment rest [] else last_segment rest (cur ++ [c])%list
  end.

(** [filename.split(".")[-1].lower()] *)
Definition file_extension (filename : string) : string :=
  lower (string_of_list_ascii (last_segment (list_ascii_of_string filename) [])).

(** The text of every shape that has a [text] attribute, slide by slide. *)
Definition shape_texts (slides : list (list (option string))) : list string :=
  flat_map (fun shapes => flat_map (fun o => match o with
                                            | Some t => [t]
                                            | None => []
                                            end) shapes) slides.

Section External.

(** The document decoders: page texts of a PDF, the shapes of each slide
    ([None] for a shape without text), the paragraphs of a word document.
    Each raises on bytes it cannot parse. *)
Variable fitz_open : bytes -> res (list string).
Variable Presentation : bytes -> res (list (list (option string))).
Variable Document : bytes -> res (list string).
(** [openai.ChatCompletion.create(...).choices[0].message.content]. *)
Variable chat_completion : string -> res string.
(** [json.loads]: [None] when it raises [JSONDecodeError]. *)
Variable json_loads : string -> option json.
(** Whether the installed client has the module [openai.error], which
    exists before openai 1.0 only (the requirements pin openai==1.3.6).
    Without it, evaluating the clause [except openai.error.AuthenticationError]
    raises [AttributeError] as soon as the [try] block has raised. *)
Variable has_openai_error : bool.

(** [extract_text(file_bytes, extension)], lines 40-69. *)
Definition extract_text (file_bytes : bytes) (extension : string) : M string :=
  let '(trace, r) :=
    if String.eqb extension "pdf" then
      ([CallFitzOpen file_bytes],
       pages <- fitz_open file_bytes ;; Ok (String.concat " " pages))
    else if String.eqb extension "pptx" || String.eqb extension "ppt" then
      ([CallPresentation file_bytes],
       prs <- Presentation file_bytes ;; Ok (String.concat " " (shape_texts prs)))
    else if String.eqb extension "docx" then
      ([CallDocument file_bytes],
       doc <- Document file_bytes ;; Ok (String.concat " " doc))
    else ([], Raise (ValueError ("Unsupported file type: " ++ extension))) in
  (trace,
   try_except r (fun e =>
     Raise (HTTPExceptionFrom 400 ("Failed to process " ++ upper extension ++ " file: ") e))).

(** [generate_exam_questions(text)], lines 91-140. *)
Definition generate_exam_questions (text : string) : M json :=
  let prompt_text := substring 0 3000 text in
  ([CallChatCompletion prompt_text],
   match (content <- chat_completion prompt_text ;;
          match json_loads content with
          | Some j => Ok j
          | None => Raise (HTTPException 500 "Failed to parse question format. Please try again.")
          end) with
   | Ok j => Ok j
   | Raise e =>
       if has_openai_error then
         match e with
         | AuthenticationError =>
             Raise (HTTPException 401 "Invalid OpenAI API key. Check your configuration.")
         | _ => Raise (HTTPExceptionFrom 500 "Question generation failed: " e)
         end
       else Raise AttributeError
   end).

(** [except HTTPException as he: raise he / except Exception as e: ...] *)
Definition upload_handler (e : exn) : exn :=
  if is_http_exception e then e else HTTPExceptionFrom 500 "Internal server error: " e.

(** [POST /upload/], lines 148-184 (the set in the 400 detail is printed
    in Python's set order, which varies between runs). *)
Definition upload_file (st : state) (filename : string) (file_bytes : bytes)
  : M json * state :=
  let extension := file_extension filename in
  if negb (supported extension) then
    (([], Raise (HTTPException 400
            "Unsupported file type. Supported formats: {'pdf', 'docx', 'pptx', 'ppt'}")), st)
  else
    let '(t1, r1) := extract_text file_bytes extension in
    match r1 with
    | Raise e => ((t1, Raise (upload_handler e)), st)
    | Ok text =>
        let '(t2, r2) := generate_exam_questions text in
        match r2 with
        | Raise e => (((t1 ++ t2)%list, Raise (upload_handler e)), st)
        | Ok questions =>
            (((t1 ++ t2)%list,
              Ok (JObj [("filename", JStr filename); ("questions", questions);
                        ("message", JStr "File processed successfully")])),
             mkState (assoc_set filename
                        (JObj [("text", JStr text); ("questions", questions)])
                        (question_bank st))
                     (student_answers st))
        end
    end.

(** [POST /submit-answers/], lines 197-219. *)
Definition submit_answers (st : state) (filename answers : string) : res json * state :=
  let body :=
    match json_loads answers with
    | Some answers_dict => Ok answers_dict
    | None => Raise (HTTPException 400 "Invalid answer format. Use JSON.")
    end in
  match body with
  | Ok answers_dict =>
      (Ok (JObj [("message", JStr "Answers submitted successfully")]),
       mkState (question_bank st) (assoc_set filename answers_dict (student_answers st)))
  | Raise e => (Raise (HTTPExceptionFrom 500 "Failed to process answers: " e), st)
  end.

End External.

(** ** The math solver: [solve_math_problem] and [POST /solve-math/] *)

(** [s.replace("^", "**")] *)
Fixpoint replace_caret (l : list ascii) : list ascii :=
  match l with
  | [] => []
  | c :: rest =>
      if Ascii.eqb c "^" then "*"%char :: "*"%char :: replace_caret rest
      else c :: replace_caret rest
  end.

(** [problem.replace("^", "**").strip()] *)
Definition preprocess (problem : string) : string :=
  strip (string_of_list_ascii (replace_caret (list_ascii_of_string problem))).

Section SymPy.

(** SymPy's expressions and solution lists, and the library calls made. *)
Variable Expr Solution : Type.
Variable parse_expr : string -> res Expr.
Variable sp_solve : Expr -> res Solution.
Variable sp_pretty : Solution -> res string.
(** [str(solution)] and [str(e)] *)
Variable str_solution : Solution -> string.
Variable str_exn : exn -> string.

(** [solve_math_problem(problem)], lines 71-89. *)
Definition solve_math_problem (problem : string) : json :=
  let problem := preprocess problem in
  match (expr <- parse_expr problem ;;
         solution <- sp_solve expr ;;
         steps <- sp_pretty solution ;;
         Ok (JObj [("problem", JStr problem); ("solution", JStr (str_solution solution));
                   ("steps", JStr steps)])) with
  | Ok d => d
  | Raise e => JObj [("error", JStr ("Could not solve " ++ problem));
                     ("details", JStr (str_exn e))]
  end.

(** [POST /solve-math/], lines 186-195. *)
Definition math_solver (problem : string) : res json :=
  let result := solve_math_problem problem in
  match result with
  | JObj kvs =>
      match assoc_get "error" kvs with
      | Some err =>
          match err with
          | JStr msg => Raise (HTTPException 400 msg)
          | _ => Raise (HTTPException 400 "")
          end
      | None => Ok result
      end
  | _ => Ok result
  end.

End SymPy.

(** ** Concrete exams, submissions and stores *)

Definition q_capital : json :=
  JObj [("question", JStr "Capital of France?"); ("answer", JStr "paris")].

(** A question record that also carries an id. *)
Definition q_arith : json :=
  JObj [("id", JStr "q1"); ("question", JStr "2+2?"); ("answer", JStr "4")].

(** The [question_bank] entry stored by [upload_file] for a question set
    holding only multiple-choice questions. *)
Definition exam_entry (mcq : list json) : json :=
  JObj [("text", JStr "lecture");
        ("questions", JObj [("multiple_choice", JArr mcq); ("fill_in", JArr []);
                            ("short_answer", JArr [])])].

(** Four questions, three of them answered correctly. *)
Definition st_three_of_four : state :=
  mkState [("lecture.pdf", exam_entry [q_capital; q_arith; q_capital; q_capital])]
          [("lecture.pdf", JObj [("Capital of France?", JStr "  Paris ")])].

Definition result_three_of_four : grading_result :=
  mkResult "75.0%" 3 4 [mkMismatch (JStr "2+2?") "" "4"] high_tier.

(** An exam is stored, no answers are. *)
Definition st_exam_no_answers : state :=
  mkState [("lecture.pdf", exam_entry [q_arith])] [].

(** Answers are stored, no exam is. *)
Definition st_answers_no_exam : state :=
  mkState [] [("lecture.pdf", JObj [("2+2?", JStr "4")])].

(** The answer is submitted under the question's id. *)
Definition st_answer_by_id : state :=
  mkState [("lecture.pdf", exam_entry [q_arith])]
          [("lecture.pdf", JObj [("q1", JStr "4")])].

(** A multiple-choice record with only three options, inside a reply in
    the requested format. *)
Definition mcq_three_options : json :=
  JObj [("question", JStr "2+2?"); ("options", JArr [JStr "3"; JStr "4"; JStr "5"]);
        ("answer", JStr "4")].

Definition reply_three_options : json :=
  JObj [("multiple_choice", JArr [mcq_three_options]); ("fill_in", JArr []);
        ("short_answer", JArr [])].

(** The first bytes of a legacy (OLE compound file) .ppt document. *)
Definition legacy_ppt_bytes : bytes := [Byte.xd0; Byte.xcf; Byte.x11; Byte.xe0].

(** The model answered with a list of questions instead of an object. *)
Definition st_questions_list : state :=
  mkState [("lecture.pdf", JObj [("text", JStr "lecture"); ("questions", JArr [q_arith])])]
          [("lecture.pdf", JObj [("2+2?", JStr "4")])].

(** The answer is submitted as a number. *)
Definition st_number_answer : state :=
  mkState [("lecture.pdf", exam_entry [q_arith])]
          [("lecture.pdf", JObj [("2+2?", JNum (4 # 1)%Q)])].

(** A question record without an ["answer"] key, whose prompt is the
    number [4]. *)
Definition q_no_answer : json := JObj [("question", JNum (4 # 1)%Q)].

Definition st_missing_answer : state :=
  mkState [("lecture.pdf", exam_entry [q_no_answer])]
          [("lecture.pdf", JObj [("2+2?", JStr "4")])].

(** The question set uses a key of its own for its questions. *)
Definition st_unknown_keys : state :=
  mkState [("lecture.pdf", JObj [("text", JStr "lecture");
                                 ("questions", JObj [("mcq", JArr [q_arith])])])]
          [("lecture.pdf", JObj [("2+2?", JStr "4")])].

(** Every answer is correct. *)
Definition st_all_correct : state :=
  mkState [("lecture.pdf", exam_entry [q_capital; q_arith])]
          [("lecture.pdf", JObj [("Capital of France?", JStr " PARIS"); ("2+2?", JStr "4 ")])].

(** A store holding another file's exam and answers. *)
Definition st_other_file : state :=
  mkState [("old.pdf", exam_entry [q_arith])] [("old.pdf", JObj [("2+2?", JStr "5")])].

(** A PDF with one page of text, and a model reply holding one question. *)
Definition one_page_pdf : bytes -> res (list string) := fun _ => Ok ["Two plus two is four."].

Definition no_decoder {A} : bytes -> res A := fun _ => Raise DecoderError.

Definition reply_one_question : string -> res string := fun _ => Ok "reply".

Definition qset_one : json :=
  JObj [("multiple_choice", JArr [q_arith]); ("fill_in", JArr []); ("short_answer", JArr [])].

(** [json.loads] on the model's reply ["reply"] and on a submitted answer
    body ["answers"]. *)
Definition parse_reply : string -> option json :=
  fun s => if String.eqb s "reply" then Some qset_one
           else if String.eqb s "answers" then Some (JObj [("2+2?", JStr "4")])
           else None.

Definition key_rejected : string -> res string := fun _ => Raise AuthenticationError.

(** ** Helper lemmas on the grading loop *)

Open Scope list_scope.

Lemma mapM_length {A B} (f : A -> res B) (l : list A) (l' : list B) :
  mapM f l = Ok l' -> length l' = length l.
Proof.
  revert l'; induction l as [|x xs IH]; intros l' H; simpl in H.
  - injection H as <-; reflexivity.
  - destruct (f x) as [y|e]; simpl in H; [|discriminate].
    destruct (mapM f xs) as [ys|e]; simpl in H; [|discriminate].
    injection H as <-; simpl; f_equal; apply IH; reflexivity.
Qed.

Lemma grade_all_app answers qs1 qs2 o1 o2 :
  grade_all answers qs1 = Ok o1 -> grade_all answers qs2 = Ok o2 ->
  grade_all answers (qs1 ++ qs2) = Ok (o1 ++ o2).
Proof.
  unfold grade_all; revert o1; induction qs1 as [|q qs IH]; intros o1 H1 H2;
    simpl in *.
  - injection H1 as <-; exact H2.
  - destruct (grade_one answers q) as [y|e]; simpl in *; [|discriminate].
    destruct (mapM (grade_one answers) qs) as [ys|e] eqn:E; simpl in *;
      [|discriminate].
    injection H1 as <-. rewrite (IH ys eq_refl H2). reflexivity.
Qed.

Lemma count_correct_app o1 o2 :
  count_correct (o1 ++ o2) = count_correct o1 + count_correct o2.
Proof. induction o1 as [|[m|] o IH]; simpl; auto. Qed.

Lemma mismatches_app o1 o2 : mismatches (o1 ++ o2) = mismatches o1 ++ mismatches o2.
Proof. induction o1 as [|[m|] o IH]; simpl; try rewrite IH; auto. Qed.

Lemma count_correct_le outs : count_correct outs <= length outs.
Proof. induction outs as [|[m|] o IH]; simpl; lia. Qed.

Lemma count_correct_mismatches outs :
  count_correct outs + length (mismatches outs) = length outs.
Proof. induction outs as [|[m|] o IH]; simpl; lia. Qed.

Lemma grade_one_ok answers q o :
  grade_one answers q = Ok o ->
  exists key ua canon,
    subscript q "question" = Ok key /\
    dict_get answers key (JStr "") = Ok (JStr ua) /\
    subscript q "answer" = Ok (JStr canon) /\
    o = outcome key ua canon.
Proof.
  unfold grade_one.
  destruct (subscript q "question") as [key|e] eqn:Ek; simpl; [|discriminate].
  destruct (dict_get answers key (JStr "")) as [ua|e] eqn:Eu; simpl;
    [|discriminate].
  destruct ua as [| | |ua| |]; simpl; try discriminate.
  destruct (subscript q "answer") as [ca|e] eqn:Ec; simpl; [|discriminate].
  destruct ca as [| | |ca| |]; simpl; try discriminate.
  intros H; injection H as <-. exists key, ua, ca; repeat split; assumption.
Qed.

Lemma grade_one_eq answers q key ua canon :
  subscript q "question" = Ok key ->
  dict_get answers key (JStr "") = Ok (JStr ua) ->
  subscript q "answer" = Ok (JStr canon) ->
  grade_one answers q = Ok (outcome key ua canon).
Proof.
  intros Hk Hu Hc; unfold grade_one; rewrite Hk; simpl; rewrite Hu; simpl;
    rewrite Hc; reflexivity.
Qed.

Lemma grade_questions_ok answers qs a a' :
  grade_questions answers qs a = Ok a' ->
  exists outs, grade_all answers qs = Ok outs /\
    a' = mkAcc (a_correct a + count_correct outs) (a_total a + length qs)
               (a_feedback a ++ mismatches outs).
Proof.
  revert a; induction qs as [|q qs IH]; intros a H; simpl in H.
  - injection H as <-. exists []; split; [reflexivity|].
    destruct a; simpl; rewrite !Nat.add_0_r, app_nil_r; reflexivity.
  - unfold grade_all; simpl.
    destruct (grade_one answers q) as [o|e]; simpl in H |- *; [|discriminate].
    destruct (IH _ H) as [outs [Hall ->]].
    unfold grade_all in Hall; rewrite Hall; simpl.
    exists (o :: outs); split; [reflexivity|].
    destruct o as [m|]; simpl; f_equal; try lia.
    rewrite <- app_assoc; reflexivity.
Qed.

Lemma grade_types_ok questions answers tys a a' :
  grade_types questions answers tys a = Ok a' ->
  exists qs outs,
    exam_questions_types questions tys = Ok qs /\
    grade_all answers qs = Ok outs /\
    a' = mkAcc (a_correct a + count_correct outs) (a_total a + length qs)
               (a_feedback a ++ mismatches outs).
Proof.
  revert a; induction tys as [|ty tys IH]; intros a H; simpl in H |- *.
  - injection H as <-. exists [], []; repeat split.
    destruct a; simpl; rewrite !Nat.add_0_r, app_nil_r; reflexivity.
  - destruct (questions_of questions ty) as [qs1|e]; simpl in H |- *;
      [|discriminate].
    destruct (grade_questions answers qs1 a) as [a1|e] eqn:E1; simpl in H;
      [|discriminate].
    destruct (grade_questions_ok _ _ _ _ E1) as [o1 [Ho1 ->]].
    destruct (IH _ H) as [qs2 [o2 [Hq2 [Ho2 ->]]]].
    rewrite Hq2; simpl.
    exists (qs1 ++ qs2), (o1 ++ o2); repeat split.
    + apply grade_all_app; assumption.
    + simpl. rewrite count_correct_app, mismatches_app, length_app, app_assoc.
      f_equal; lia.
Qed.

(** [get_results], when it answers, is determined by the outcomes of the
    exam's questions in question order. *)
Lemma get_results_ok st filename r :
  get_results st filename = Ok r ->
  exists qs outs,
    exam_questions st filename = Ok qs /\
    grade_all (answers_of st filename) qs = Ok outs /\
    length outs = length qs /\
    r = mkResult (fmt1 (score_value (count_correct outs) (length qs)) ++ "%")
                 (count_correct outs) (length qs)
                 (firstn 5 (mismatches outs))
                 (suggestions_for (score_value (count_correct outs) (length qs))).
Proof.
  unfold get_results, try_except.
  destruct (grade_types _ _ q_types (mkAcc 0 0 [])) as [a|e] eqn:E; simpl;
    [|discriminate].
  intros H; injection H as <-.
  destruct (grade_types_ok _ _ _ _ _ E) as [qs [outs [Hq [Ho ->]]]].
  exists qs, outs; repeat split; try assumption.
  apply (mapM_length _ _ _ Ho).
Qed.

Lemma grade_all_forall2 answers qs outs :
  grade_all answers qs = Ok outs ->
  Forall2 (fun q o => grade_one answers q = Ok o) qs outs.
Proof.
  unfold grade_all; revert outs; induction qs as [|q qs IH]; intros outs H;
    simpl in H.
  - injection H as <-; constructor.
  - destruct (grade_one answers q) as [o|e] eqn:E; simpl in H; [|discriminate].
    destruct (mapM (grade_one answers) qs) as [os|e]; simpl in H; [|discriminate].
    injection H as <-; constructor; [assumption | apply IH; reflexivity].
Qed.

Lemma grade_all_outcomes answers qs outs :
  grade_all answers qs = Ok outs ->
  Forall2 (fun q o => exists key ua canon,
      subscript q "question" = Ok key /\
      dict_get answers key (JStr "") = Ok (JStr ua) /\
      subscript q "answer" = Ok (JStr canon) /\
      o = outcome key ua canon) qs outs.
Proof.
  intros H; apply grade_all_forall2 in H.
  induction H as [|q o qs outs Hq _ IH]; constructor; [|exact IH].
  apply grade_one_ok; exact Hq.
Qed.

Lemma outcome_None key ua canon :
  outcome key ua canon = None <-> lower (strip ua) = lower (strip canon).
Proof.
  unfold outcome, normalize.
  destruct (String.eqb_spec (lower (strip ua)) (lower (strip canon))); split;
    congruence.
Qed.

Lemma Qltb_true x y : Qltb x y = true <-> (x < y)%Q.
Proof.
  unfold Qltb; rewrite negb_true_iff; split; intros H.
  - apply Qnot_le_lt; intros Hle; apply Qle_bool_iff in Hle; congruence.
  - destruct (Qle_bool y x) eqn:E; [|reflexivity].
    apply Qle_bool_iff in E; exfalso; apply (Qlt_not_le _ _ H E).
Qed.

(** Rounding bounds for the binary64 score. *)

Lemma digits2_pos_size p : digits2_pos p = Pos.size p.
Proof. induction p; simpl; congruence. Qed.

Lemma Zdigits2_lt m k : (0 <= m < 2 ^ k)%Z -> (0 <= k)%Z -> (Zdigits2 m <= k)%Z.
Proof.
  intros [H0 H1] Hk; destruct m as [|p|p]; simpl; [lia| |lia].
  rewrite digits2_pos_size.
  pose proof (Pos.size_le p) as Hs; apply Pos2Z.pos_le_pos in Hs.
  rewrite Pos2Z.inj_pow in Hs; change (Zpos p~0) with (2 * Zpos p)%Z in Hs.
  destruct (Z.le_gt_cases (Zpos (Pos.size p)) k) as [|Hgt]; [assumption|].
  exfalso.
  assert (2 ^ (k + 1) <= 2 ^ Zpos (Pos.size p))%Z by (apply Z.pow_le_mono_r; lia).
  rewrite Z.pow_add_r, Z.pow_1_r in H by lia. lia.
Qed.

Lemma shr_m_record_of_loc m l : shr_m (shr_record_of_loc m l) = m.
Proof. destruct l as [|[]]; reflexivity. Qed.

Lemma shr_1_m mrs : (0 <= shr_m mrs)%Z ->
  shr_m (shr_1 mrs) = (shr_m mrs / 2)%Z /\ (0 <= shr_m (shr_1 mrs))%Z.
Proof.
  destruct mrs as [[|[p|p|]|p] r s]; simpl; intros H; try lia.
  - split; [reflexivity|lia].
  - rewrite Pos2Z.inj_xI, Z.mul_comm, Z.add_comm, Z.div_add by lia; simpl; lia.
  - rewrite Pos2Z.inj_xO, Z.mul_comm, Z.div_mul by lia; lia.
  - split; reflexivity.
Qed.

Lemma iter_shr_m p mrs : (0 <= shr_m mrs)%Z ->
  shr_m (iter_pos shr_1 p mrs) = (shr_m mrs / 2 ^ Zpos p)%Z /\
  (0 <= shr_m (iter_pos shr_1 p mrs))%Z.
Proof.
  revert mrs; induction p as [p IH|p IH|]; intros mrs H; cbn [iter_pos].
  - destruct (shr_1_m mrs H) as [H1 H2].
    destruct (IH _ H2) as [H3 H4]. destruct (IH _ H4) as [H5 H6].
    split; [|exact H6].
    rewrite H5, H3, H1, !Z.div_div by (try apply Z.mul_pos_pos; try apply Z.pow_pos_nonneg; lia).
    f_equal. replace (Zpos p~1) with (Zpos p + Zpos p + 1)%Z by lia.
    rewrite !Z.pow_add_r by lia. ring.
  - destruct (IH _ H) as [H3 H4]. destruct (IH _ H4) as [H5 H6].
    split; [|exact H6].
    rewrite H5, H3, !Z.div_div by (try apply Z.pow_pos_nonneg; lia).
    f_equal. replace (Zpos p~0) with (Zpos p + Zpos p)%Z by lia.
    rewrite !Z.pow_add_r by lia. ring.
  - apply shr_1_m, H.
Qed.

Lemma fexp64 x : fexp prec64 emax64 x = Z.max (x - 53) (-1074).
Proof. reflexivity. Qed.

Lemma shr_fexp_shape m e l mrs' e' :
  (0 <= m)%Z -> shr_fexp prec64 emax64 m e l = (mrs', e') ->
  e' = Z.max e (fexp prec64 emax64 (Zdigits2 m + e)) /\
  shr_m mrs' = (m / 2 ^ (e' - e))%Z /\ (0 <= shr_m mrs')%Z.
Proof.
  intros Hm; unfold shr_fexp, shr.
  destruct (fexp prec64 emax64 (Zdigits2 m + e) - e)%Z as [|p|p] eqn:En; intros H;
    injection H as <- <-; rewrite ?shr_m_record_of_loc.
  - rewrite Z.sub_diag, Z.pow_0_r, Z.div_1_r; split; [lia|split; [reflexivity|exact Hm]].
  - destruct (iter_shr_m p (shr_record_of_loc m l)) as [H1 H2];
      [rewrite shr_m_record_of_loc; exact Hm|].
    rewrite shr_m_record_of_loc in H1.
    split; [lia|]. split; [|exact H2].
    rewrite H1; do 2 f_equal; lia.
  - rewrite Z.sub_diag, Z.pow_0_r, Z.div_1_r; split; [lia|split; [reflexivity|exact Hm]].
Qed.

Lemma round_nearest_even_le m l : (m <= round_nearest_even m l <= m + 1)%Z.
Proof. destruct l as [|[]]; simpl; try destruct (Z.even m); lia. Qed.

Lemma pow_split f e e' : (e <= e')%Z -> (e' <= f)%Z ->
  (2 ^ (f - e) = 2 ^ (f - e') * 2 ^ (e' - e))%Z.
Proof. intros; rewrite <- Z.pow_add_r by lia; f_equal; lia. Qed.

Lemma round_phase2 K f m2 e1 :
  (0 <= m2 <= K * 2 ^ (f - e1))%Z -> (e1 <= f)%Z -> (0 < K < 2 ^ 53)%Z -> (-1074 <= f <= 971)%Z ->
  below K f
    (let '(mrs'', e'') := shr_fexp prec64 emax64 m2 e1 loc_Exact in
     match shr_m mrs'' with
     | Z0 => S754_zero false
     | Zpos m => if Z.leb e'' (emax64 - prec64) then S754_finite false m e''
                 else S754_infinity false
     | Zneg _ => S754_nan
     end).
Proof.
  intros Hm He HK Hf.
  destruct (shr_fexp prec64 emax64 m2 e1 loc_Exact) as [mrs'' e''] eqn:E.
  destruct (shr_fexp_shape _ _ _ _ _ (proj1 Hm) E) as [He'' [Hm3 Hm3']].
  assert (Hd : (Zdigits2 m2 <= 53 + (f - e1))%Z).
  { apply Zdigits2_lt; [|lia]. split; [lia|].
    rewrite Z.pow_add_r by lia.
    apply (Z.le_lt_trans _ (K * 2 ^ (f - e1))); [lia|].
    apply Z.mul_lt_mono_pos_r; [apply Z.pow_pos_nonneg; lia|lia]. }
  rewrite fexp64 in He''.
  assert (He3 : (e'' <= f)%Z) by lia.
  destruct (shr_m mrs'') as [|m3|m3] eqn:Em; cbn [below]; [reflexivity| |lia].
  destruct (Z.leb e'' (emax64 - prec64)) eqn:El; cbn [below];
    [|apply Z.leb_gt in El; unfold emax64, prec64 in El; lia].
  split; [reflexivity|split; [exact He3|]].
  rewrite Hm3.
  rewrite (pow_split f e1 e'') in Hm by lia.
  apply Z.div_le_upper_bound; [apply Z.pow_pos_nonneg; lia|].
  rewrite Z.mul_assoc, Z.mul_comm; lia.
Qed.

Lemma round_aux_strict K f m e l :
  (0 <= m < K * 2 ^ (f - e))%Z -> (e <= f)%Z ->
  (fexp prec64 emax64 (Zdigits2 m + e) <= f)%Z ->
  (0 < K < 2 ^ 53)%Z -> (-1074 <= f <= 971)%Z ->
  below K f (binary_round_aux prec64 emax64 false m e l).
Proof.
  intros Hm He Hfe HK Hf; unfold binary_round_aux.
  destruct (shr_fexp prec64 emax64 m e l) as [mrs' e'] eqn:E1.
  destruct (shr_fexp_shape _ _ _ _ _ (proj1 Hm) E1) as [He' [Hm1 Hm1']].
  assert (He'f : (e' <= f)%Z) by lia.
  apply round_phase2; [|exact He'f|exact HK|exact Hf].
  pose proof (round_nearest_even_le (shr_m mrs') (loc_of_shr_record mrs')).
  assert (shr_m mrs' < K * 2 ^ (f - e'))%Z; [|lia].
  rewrite Hm1; apply Z.div_lt_upper_bound; [apply Z.pow_pos_nonneg; lia|].
  rewrite (pow_split f e e') in Hm by lia; lia.
Qed.

Lemma shr_1_even m : (0 <= m)%Z ->
  shr_1 (Build_shr_record (2 * m) false false) = Build_shr_record m false false.
Proof. destruct m; intros H; try reflexivity; lia. Qed.

Lemma iter_shr_exact p m : (0 <= m)%Z ->
  iter_pos shr_1 p (Build_shr_record (2 ^ Zpos p * m) false false) =
  Build_shr_record m false false.
Proof.
  revert m; induction p as [p IH|p IH|]; intros m Hm; cbn [iter_pos].
  - replace (2 ^ Zpos p~1 * m)%Z with (2 * (2 ^ Zpos p * (2 ^ Zpos p * m)))%Z.
    2:{ replace (Zpos p~1) with (Zpos p + Zpos p + 1)%Z by lia.
        rewrite !Z.pow_add_r by lia. ring. }
    rewrite shr_1_even by (apply Z.mul_nonneg_nonneg; [apply Z.pow_nonneg|apply Z.mul_nonneg_nonneg; [apply Z.pow_nonneg|]]; lia).
    rewrite IH by (apply Z.mul_nonneg_nonneg; [apply Z.pow_nonneg|]; lia).
    apply IH, Hm.
  - replace (2 ^ Zpos p~0 * m)%Z with (2 ^ Zpos p * (2 ^ Zpos p * m))%Z.
    2:{ replace (Zpos p~0) with (Zpos p + Zpos p)%Z by lia.
        rewrite !Z.pow_add_r by lia. ring. }
    rewrite IH by (apply Z.mul_nonneg_nonneg; [apply Z.pow_nonneg|]; lia).
    apply IH, Hm.
  - rewrite Z.pow_1_r; apply shr_1_even, Hm.
Qed.

Lemma round_aux_exact K f m e :
  (0 <= m <= K * 2 ^ (f - e))%Z -> (e <= f)%Z ->
  (fexp prec64 emax64 (Zdigits2 m + e) <= f)%Z ->
  (0 < K < 2 ^ 53)%Z -> (-1074 <= f <= 971)%Z ->
  below K f (binary_round_aux prec64 emax64 false m e loc_Exact).
Proof.
  intros Hm He Hfe HK Hf; unfold binary_round_aux.
  destruct (shr_fexp prec64 emax64 m e loc_Exact) as [mrs' e'] eqn:E1.
  destruct (shr_fexp_shape _ _ _ _ _ (proj1 Hm) E1) as [He' [Hm1 Hm1']].
  assert (He'f : (e' <= f)%Z) by lia.
  apply round_phase2; [|exact He'f|exact HK|exact Hf].
  pose proof (round_nearest_even_le (shr_m mrs') (loc_of_shr_record mrs')) as Hr.
  rewrite (pow_split f e e') in Hm by lia.
  assert (Hp : (0 < 2 ^ (e' - e))%Z) by (apply Z.pow_pos_nonneg; lia).
  destruct (Z.eq_dec (m mod 2 ^ (e' - e)) 0) as [Hmod|Hmod].
  - (* nothing is shifted out: the value stays exact *)
    assert (Hx : loc_of_shr_record mrs' = loc_Exact).
    { unfold shr_fexp, shr in E1.
      destruct (fexp prec64 emax64 (Zdigits2 m + e) - e)%Z as [|p|p] eqn:En;
        injection E1 as Hr' Hee; subst mrs'; [reflexivity| |reflexivity].
      assert (Hpe : Zpos p = (e' - e)%Z) by lia.
      assert (Hme : m = (2 ^ Zpos p * (m / 2 ^ Zpos p))%Z).
      { rewrite Hpe. rewrite (Z.div_mod m (2 ^ (e' - e))) at 1 by lia.
        rewrite Hmod; ring. }
      cbn [shr_record_of_loc]; rewrite Hme, iter_shr_exact; [reflexivity|].
      apply Z.div_pos; [lia|apply Z.pow_pos_nonneg; lia]. }
    rewrite Hx; cbn [round_nearest_even].
    split; [exact Hm1'|].
    rewrite Hm1; apply Z.div_le_upper_bound; [exact Hp|]. lia.
  - assert (shr_m mrs' < K * 2 ^ (f - e'))%Z; [|lia].
    rewrite Hm1.
    pose proof (Z.div_mod m (2 ^ (e' - e)) ltac:(lia)) as Hdm.
    pose proof (Z.mod_pos_bound m (2 ^ (e' - e)) Hp) as Hb.
    assert (2 ^ (e' - e) * (m / 2 ^ (e' - e)) < 2 ^ (e' - e) * (K * 2 ^ (f - e')))%Z by lia.
    apply Z.mul_lt_mono_pos_l in H; lia.
Qed.

Lemma div_eucl_pair a b : Z.div_eucl a b = (a / b, a mod b)%Z.
Proof. unfold Z.div, Z.modulo; destruct (Z.div_eucl a b); reflexivity. Qed.

Lemma new_location_exact n : new_location n 0 = loc_Exact.
Proof.
  unfold new_location, new_location_even, new_location_odd.
  destruct (Z.even n); reflexivity.
Qed.

Lemma Zdigits2_pos_bound p : (Zpos p < 2 ^ Zdigits2 (Zpos p))%Z.
Proof.
  cbn [Zdigits2]; rewrite digits2_pos_size.
  pose proof (Pos.size_gt p) as H; apply Pos2Z.pos_lt_pos in H.
  rewrite Pos2Z.inj_pow in H; exact H.
Qed.

Lemma Zdigits2_mono a b : (0 < a <= b)%Z -> (Zdigits2 a <= Zdigits2 b)%Z.
Proof.
  intros H; destruct b as [|pb|pb]; try lia.
  apply Zdigits2_lt; [|cbn [Zdigits2]; lia].
  pose proof (Zdigits2_pos_bound pb); lia.
Qed.

Lemma div_core_shape a b e' :
  (0 < a <= b)%Z -> e' = Z.max (Zdigits2 a - Zdigits2 b - 53) (-1074) ->
  SFdiv_core_binary prec64 emax64 a 0 b 0 =
    (a * 2 ^ (- e') / b, e', new_location b (a * 2 ^ (- e') mod b))%Z.
Proof.
  intros Hab He'; unfold SFdiv_core_binary.
  pose proof (Zdigits2_mono a b Hab) as Hd.
  rewrite fexp64.
  replace (Z.min (Z.max (Zdigits2 a + 0 - (Zdigits2 b + 0) - 53) (-1074)) (0 - 0))%Z
    with e' by lia.
  replace (0 - 0 - e')%Z with (- e')%Z by lia.
  assert (Hs : (53 <= - e')%Z) by lia.
  destruct (- e')%Z as [|s|s] eqn:Es; try lia.
  rewrite Z.shiftl_mul_pow2 by lia.
  rewrite div_eucl_pair; reflexivity.
Qed.

Lemma truediv_below (c t : nat) : (0 < c <= t)%nat -> below 1 0 (int_truediv c t).
Proof.
  intros Hct; destruct c as [|c']; [lia|]; destruct t as [|t']; [lia|].
  unfold int_truediv, float_exact, SFdiv.
  assert (Hab : (0 < Zpos (Pos.of_succ_nat c') <= Zpos (Pos.of_succ_nat t'))%Z)
    by (rewrite !Zpos_P_of_succ_nat; lia).
  set (a := Zpos (Pos.of_succ_nat c')) in *; set (b := Zpos (Pos.of_succ_nat t')) in *.
  set (e' := Z.max (Zdigits2 a - Zdigits2 b - 53) (-1074)).
  rewrite (div_core_shape a b e' Hab eq_refl); cbn [xorb].
  pose proof (Zdigits2_mono a b Hab).
  assert (Hs : (53 <= - e')%Z) by (unfold e'; lia).
  assert (Hp : (0 < 2 ^ (- e'))%Z) by (apply Z.pow_pos_nonneg; lia).
  set (q := (a * 2 ^ (- e') / b)%Z); set (r := (a * 2 ^ (- e') mod b)%Z).
  assert (Hdm : (a * 2 ^ (- e') = b * q + r)%Z) by (apply Z.div_mod; lia).
  assert (Hr : (0 <= r < b)%Z) by (apply Z.mod_pos_bound; lia).
  assert (Hq0 : (0 <= q)%Z) by (apply Z.div_pos; lia).
  assert (Hq1 : (q <= 2 ^ (- e'))%Z) by (apply Z.div_le_upper_bound; lia + nia).
  assert (Hdq : (fexp prec64 emax64 (Zdigits2 q + e') <= 0)%Z).
  { rewrite fexp64.
    assert (Zdigits2 q <= - e' + 1)%Z; [|lia].
    apply Zdigits2_lt; [|lia]. rewrite Z.pow_add_r, Z.pow_1_r by lia. lia. }
  destruct (Z.eq_dec r 0) as [Hr0|Hr0].
  - rewrite Hr0, new_location_exact.
    apply round_aux_exact; rewrite ?Z.sub_0_l; lia.
  - apply round_aux_strict; rewrite ?Z.sub_0_l; try lia.
    split; [lia|].
    assert (Hbq : (b * q < b * 2 ^ (- e'))%Z) by nia.
    apply Z.mul_lt_mono_pos_l in Hbq; lia.
Qed.

Lemma float_100_eq : float_100 = S754_finite false 7036874417766400 (-46).
Proof. reflexivity. Qed.

Lemma mul_100_below x : below 1 0 x -> below 25 2 (SFmul prec64 emax64 x float_100).
Proof.
  rewrite float_100_eq.
  destruct x as [s|s| |s mx ex]; cbn [below]; try tauto.
  - intros ->; reflexivity.
  - intros (-> & He & Hm); cbn [SFmul xorb].
    rewrite Pos2Z.inj_mul.
    assert (Hp : (0 < 2 ^ (0 - ex))%Z) by (apply Z.pow_pos_nonneg; lia).
    assert (Hb : (Zpos mx * Zpos 7036874417766400 <= 25 * 2 ^ (2 - (ex + -46)))%Z).
    { replace (2 - (ex + -46))%Z with (48 + (0 - ex))%Z by lia.
      rewrite Z.pow_add_r by lia.
      change (Zpos 7036874417766400) with (25 * 2 ^ 48)%Z. nia. }
    apply round_aux_exact; try lia.
    rewrite fexp64.
    assert (Zdigits2 (Zpos mx * Zpos 7036874417766400) <= 53 - ex)%Z; [|lia].
    apply Zdigits2_lt; [|lia].
    split; [lia|].
    replace (53 - ex)%Z with (5 + (2 - (ex + -46)))%Z by lia.
    rewrite Z.pow_add_r by lia.
    assert (0 < 2 ^ (2 - (ex + -46)))%Z by (apply Z.pow_pos_nonneg; lia).
    change (2 ^ 5)%Z with 32%Z. lia.
Qed.

Lemma below_Q K f x : (0 <= K)%Z -> (0 <= f)%Z -> below K f x ->
  (0 <= Q_of_float x /\ Q_of_float x <= inject_Z (K * 2 ^ f))%Q.
Proof.
  intros HK Hf; destruct x as [s|s| |s m e]; cbn [below Q_of_float]; try tauto.
  - intros _; change 0%Q with (inject_Z 0); rewrite <- !Zle_Qle.
    split; [lia|]. apply Z.mul_nonneg_nonneg; [lia|apply Z.pow_nonneg; lia].
  - intros (-> & He & Hm).
    destruct e as [|k|k].
    + change 0%Q with (inject_Z 0); rewrite <- !Zle_Qle.
      rewrite Z.sub_0_r in Hm; rewrite Z.pow_0_r; lia.
    + change 0%Q with (inject_Z 0); rewrite <- !Zle_Qle.
      pose proof (pow_split f 0 (Zpos k) ltac:(lia) He) as Hsp.
      rewrite !Z.sub_0_r in Hsp. rewrite Hsp.
      assert (0 < 2 ^ Zpos k)%Z by (apply Z.pow_pos_nonneg; lia).
      split; [lia|nia].
    + unfold Qle; cbn [Qnum Qden inject_Z].
      rewrite Pos2Z.inj_pow.
      replace (f - Zneg k)%Z with (f + Zpos k)%Z in Hm by lia.
      rewrite Z.pow_add_r in Hm by lia.
      assert (0 < 2 ^ Zpos k)%Z by (apply Z.pow_pos_nonneg; lia).
      split; lia.
Qed.

Lemma truediv_below_le (c t : nat) : (c <= t)%nat -> (0 < t)%nat -> below 1 0 (int_truediv c t).
Proof.
  intros Hct Ht; destruct c as [|c'].
  - destruct t; [lia|reflexivity].
  - apply truediv_below; lia.
Qed.

Lemma truediv_same n : int_truediv (S n) (S n) = S754_finite false 4503599627370496 (-52).
Proof.
  unfold int_truediv, float_exact, SFdiv.
  set (a := Zpos (Pos.of_succ_nat n)).
  assert (Ha : (0 < a)%Z) by (unfold a; lia).
  rewrite (div_core_shape a a (-53)) by lia.
  change (- -53)%Z with 53%Z.
  rewrite Z.mul_comm, Z.div_mul, Z.mod_mul, new_location_exact by lia.
  reflexivity.
Qed.

Lemma score_value_bounds c t :
  (c <= t)%nat -> (0 <= score_value c t <= 100)%Q.
Proof.
  intros Hle; unfold score_value.
  destruct t as [|t']; cbn [Nat.ltb Nat.leb].
  - split; [apply Qle_refl | unfold Qle; simpl; lia].
  - apply (below_Q 25 2); [lia|lia|].
    apply mul_100_below, truediv_below_le; lia.
Qed.

Lemma score_value_full n' :
  score_value (S n') (S n') = (7036874417766400 # 70368744177664)%Q.
Proof. unfold score_value; cbn [Nat.ltb Nat.leb]; rewrite truediv_same; reflexivity. Qed.

Lemma suggestions_for_tiers s :
  (suggestions_for s = low_tier <-> (s < 50)%Q) /\
  (suggestions_for s = mid_tier <-> (50 <= s)%Q /\ (s < 75)%Q) /\
  (suggestions_for s = high_tier <-> (75 <= s)%Q).
Proof.
  assert (H5075 : (50 < 75)%Q) by reflexivity.
  unfold suggestions_for.
  destruct (Qltb s 50) eqn:E1; [apply Qltb_true in E1|];
    [|destruct (Qltb s 75) eqn:E2; [apply Qltb_true in E2|]];
  try (rewrite <- not_true_iff_false, Qltb_true in E1; apply Qnot_lt_le in E1);
  try (rewrite <- not_true_iff_false, Qltb_true in E2; apply Qnot_lt_le in E2);
  repeat split; intros; try reflexivity; try assumption; try discriminate;
  try (match goal with Hc : _ /\ _ |- _ => destruct Hc end);
  exfalso.
  - apply (Qlt_not_le _ _ E1); assumption.
  - apply (Qlt_not_le _ _ (Qlt_trans _ _ _ E1 H5075)); assumption.
  - apply (Qlt_not_le _ _ H); assumption.
  - apply (Qlt_not_le _ _ E2); assumption.
  - apply (Qlt_not_le _ _ H); apply (Qle_trans _ 75); [apply Qlt_le_weak|]; assumption.
  - apply (Qlt_not_le _ _ H0); assumption.
Qed.

(** ** Grading claims *)

(** Claim C1: every question of the exam, whatever its variant, is counted
    correct exactly when the submitted answer and the canonical answer are
    equal after [strip] and [lower] of both, and nothing else; in
    particular ["  Paris "] matches ["paris"]. *)
Theorem grade_correct_iff_normalized_equal st filename r :
  get_results st filename = Ok r ->
  (exists qs outs,
    exam_questions st filename = Ok qs /\
    grade_all (answers_of st filename) qs = Ok outs /\
    correct r = count_correct outs /\
    Forall2 (fun q o => exists key ua canon,
        subscript q "question" = Ok key /\
        dict_get (answers_of st filename) key (JStr "") = Ok (JStr ua) /\
        subscript q "answer" = Ok (JStr canon) /\
        (o = None <-> lower (strip ua) = lower (strip canon))) qs outs) /\
  lower (strip "  Paris ") = lower (strip "paris").
Proof.
  intros H; split; [|reflexivity].
  destruct (get_results_ok _ _ _ H) as [qs [outs [Hq [Ho [_ ->]]]]].
  exists qs, outs; split; [exact Hq|]; split; [exact Ho|]; split; [reflexivity|].
  eapply Forall2_impl; [|apply grade_all_outcomes; exact Ho].
  intros q o [key [ua [canon [H1 [H2 [H3 ->]]]]]].
  exists key, ua, canon; repeat split; try assumption;
    apply outcome_None; assumption.
Qed.

Lemma grade_correct_iff_normalized_equal_witness :
  get_results st_three_of_four "lecture.pdf" = Ok result_three_of_four /\
  ((exists qs outs,
    exam_questions st_three_of_four "lecture.pdf" = Ok qs /\
    grade_all (answers_of st_three_of_four "lecture.pdf") qs = Ok outs /\
    correct result_three_of_four = count_correct outs /\
    Forall2 (fun q o => exists key ua canon,
        subscript q "question" = Ok key /\
        dict_get (answers_of st_three_of_four "lecture.pdf") key (JStr "") = Ok (JStr ua) /\
        subscript q "answer" = Ok (JStr canon) /\
        (o = None <-> lower (strip ua) = lower (strip canon))) qs outs) /\
  lower (strip "  Paris ") = lower (strip "paris")).
Proof.
  assert (H : get_results st_three_of_four "lecture.pdf" = Ok result_three_of_four)
    by (vm_compute; reflexivity).
  split; [exact H|].
  exact (grade_correct_iff_normalized_equal _ _ _ H).
Defined.

(** Claim C3: the feedback list is the first five entries of the list of
    incorrect questions in question order (multiple choice, then fill in,
    then short answer), so its length is [min 5 (number incorrect)]. *)
Theorem feedback_first_five_mismatches st filename r :
  get_results st filename = Ok r ->
  exists qs outs,
    exam_questions st filename = Ok qs /\
    grade_all (answers_of st filename) qs = Ok outs /\
    feedback r = firstn 5 (mismatches outs) /\
    length (feedback r) = Nat.min 5 (length (mismatches outs)).
Proof.
  intros H.
  destruct (get_results_ok _ _ _ H) as [qs [outs [Hq [Ho [_ ->]]]]].
  exists qs, outs; repeat split; try assumption.
  cbn [feedback]; apply length_firstn.
Qed.

Lemma feedback_first_five_mismatches_witness :
  get_results st_three_of_four "lecture.pdf" = Ok result_three_of_four /\
  exists qs outs,
    exam_questions st_three_of_four "lecture.pdf" = Ok qs /\
    grade_all (answers_of st_three_of_four "lecture.pdf") qs = Ok outs /\
    feedback result_three_of_four = firstn 5 (mismatches outs) /\
    length (feedback result_three_of_four) = Nat.min 5 (length (mismatches outs)).
Proof.
  assert (H : get_results st_three_of_four "lecture.pdf" = Ok result_three_of_four)
    by (vm_compute; reflexivity).
  split; [exact H|].
  exact (feedback_first_five_mismatches _ _ _ H).
Defined.

(** Claim C10: every answered results request carries exactly three
    suggestions, fixed by the tier of the numeric score: below 50, from 50
    below 75, or 75 and above. *)
Theorem suggestions_three_by_tier st filename r :
  get_results st filename = Ok r ->
  let s := score_value (correct r) (total r) in
  length (suggestions r) = 3 /\
  suggestions r = suggestions_for s /\
  (suggestions r = low_tier <-> (s < 50)%Q) /\
  (suggestions r = mid_tier <-> (50 <= s)%Q /\ (s < 75)%Q) /\
  (suggestions r = high_tier <-> (75 <= s)%Q).
Proof.
  intros H.
  destruct (get_results_ok _ _ _ H) as [qs [outs [Hq [Ho [_ ->]]]]].
  cbn [suggestions correct total].
  split; [|split; [reflexivity | apply suggestions_for_tiers]].
  unfold suggestions_for; destruct (Qltb _ 50); [|destruct (Qltb _ 75)];
    reflexivity.
Qed.

Lemma suggestions_three_by_tier_witness :
  get_results st_three_of_four "lecture.pdf" = Ok result_three_of_four /\
  let s := score_value (correct result_three_of_four) (total result_three_of_four) in
  length (suggestions result_three_of_four) = 3 /\
  suggestions result_three_of_four = suggestions_for s /\
  (suggestions result_three_of_four = low_tier <-> (s < 50)%Q) /\
  (suggestions result_three_of_four = mid_tier <-> (50 <= s)%Q /\ (s < 75)%Q) /\
  (suggestions result_three_of_four = high_tier <-> (75 <= s)%Q).
Proof.
  assert (H : get_results st_three_of_four "lecture.pdf" = Ok result_three_of_four)
    by (vm_compute; reflexivity).
  split; [exact H|].
  exact (suggestions_three_by_tier _ _ _ H).
Defined.

(** Claim C2 fails: the returned score is the string ["75.0%"], not the
    number [75.0], for [total = 4] and [correct = 3]. *)
Lemma score_is_string_not_number :
  exists r, get_results st_three_of_four "lecture.pdf" = Ok r /\
    total r = 4 /\ correct r = 3 /\
    subscript (result_to_json r) "score" = Ok (JStr "75.0%") /\
    subscript (result_to_json r) "score" <> Ok (JNum 75).
Proof.
  exists result_three_of_four; split; [vm_compute; reflexivity|].
  repeat split; try reflexivity. vm_compute; discriminate.
Qed.

(** Claim C2 (amended): the returned score is a string, the double
    [(correct / total) * 100] (0 when [total = 0], with no division)
    printed with one decimal and followed by ["%"]; the percentage lies in
    [0, 100]; [total = 4], [correct = 3] gives ["75.0%"], a zero-question
    exam gives ["0.0%"], and [23] correct of [80] gives ["28.7%"] (the
    double is just below [28.75]). *)
Theorem score_percent_string st filename r :
  get_results st filename = Ok r ->
  correct r <= total r /\
  score r = (fmt1 (score_value (correct r) (total r)) ++ "%")%string /\
  (0 <= score_value (correct r) (total r) <= 100)%Q /\
  (total r = 0 -> score r = "0.0%") /\
  (fmt1 (score_value 3 4) ++ "%")%string = "75.0%" /\
  (fmt1 (score_value 23 80) ++ "%")%string = "28.7%".
Proof.
  intros H.
  destruct (get_results_ok _ _ _ H) as [qs [outs [Hq [Ho [Hlen ->]]]]].
  cbn [score correct total].
  assert (Hle : count_correct outs <= length qs)
    by (rewrite <- Hlen; apply count_correct_le).
  repeat split; try reflexivity; try assumption;
    try apply (score_value_bounds _ _ Hle).
  intros H0; rewrite H0; unfold score_value; simpl; reflexivity.
Qed.

Lemma score_percent_string_witness :
  get_results st_three_of_four "lecture.pdf" = Ok result_three_of_four /\
  correct result_three_of_four <= total result_three_of_four /\
  score result_three_of_four =
    (fmt1 (score_value (correct result_three_of_four) (total result_three_of_four))
     ++ "%")%string /\
  (0 <= score_value (correct result_three_of_four) (total result_three_of_four) <= 100)%Q /\
  (total result_three_of_four = 0 -> score result_three_of_four = "0.0%") /\
  (fmt1 (score_value 3 4) ++ "%")%string = "75.0%" /\
  (fmt1 (score_value 23 80) ++ "%")%string = "28.7%".
Proof.
  assert (H : get_results st_three_of_four "lecture.pdf" = Ok result_three_of_four)
    by (vm_compute; reflexivity).
  split; [exact H|].
  exact (score_percent_string _ _ _ H).
Defined.

(** Claim C4 fails: with an exam stored but no answers submitted the
    request does not degrade to [total = 0] and an empty feedback list. *)
Lemma exam_without_answers_is_graded :
  get_results st_exam_no_answers "lecture.pdf" =
  Ok (mkResult "0.0%" 0 1 [mkMismatch (JStr "2+2?") "" "4"] low_tier).
Proof. vm_compute; reflexivity. Qed.

(** Claim C4 (amended): for an identifier with no stored exam set, whether
    or not answers are stored, the results request succeeds with score
    ["0.0%"], [correct = 0], [total = 0], no feedback entries and the
    low-tier suggestions. *)
Theorem results_without_exam st filename :
  assoc_get filename (question_bank st) = None ->
  get_results st filename = Ok (mkResult "0.0%" 0 0 [] low_tier).
Proof.
  intros H; unfold get_results, store_get; rewrite H; reflexivity.
Qed.

Lemma results_without_exam_witness :
  assoc_get "lecture.pdf" (question_bank st_answers_no_exam) = None /\
  get_results st_answers_no_exam "lecture.pdf" = Ok (mkResult "0.0%" 0 0 [] low_tier).
Proof.
  split; [reflexivity|]. apply results_without_exam; reflexivity.
Defined.

(** Claim C5 fails: an answer submitted under the question's id is not
    found; the question is graded against the empty string. *)
Lemma answer_under_id_not_found :
  get_results st_answer_by_id "lecture.pdf" =
  Ok (mkResult "0.0%" 0 1 [mkMismatch (JStr "2+2?") "" "4"] low_tier).
Proof. vm_compute; reflexivity. Qed.

(** Claim C5 (amended): every question, in order, is graded with the
    answer stored under its prompt text [question["question"]] (never
    under an id), the empty string when there is none, and every question
    counts toward [total]. *)
Theorem answers_looked_up_by_prompt st filename r :
  get_results st filename = Ok r ->
  exists qs outs,
    exam_questions st filename = Ok qs /\
    grade_all (answers_of st filename) qs = Ok outs /\
    total r = length qs /\
    Forall2 (fun q o => exists key ua canon,
        subscript q "question" = Ok key /\
        dict_get (answers_of st filename) key (JStr "") = Ok (JStr ua) /\
        subscript q "answer" = Ok (JStr canon) /\
        o = outcome key ua canon) qs outs.
Proof.
  intros H.
  destruct (get_results_ok _ _ _ H) as [qs [outs [Hq [Ho [_ ->]]]]].
  exists qs, outs; split; [exact Hq|]; split; [exact Ho|]; split;
    [reflexivity|].
  apply grade_all_outcomes; exact Ho.
Qed.

Lemma answers_looked_up_by_prompt_witness :
  get_results st_answer_by_id "lecture.pdf" =
    Ok (mkResult "0.0%" 0 1 [mkMismatch (JStr "2+2?") "" "4"] low_tier) /\
  exists qs outs,
    exam_questions st_answer_by_id "lecture.pdf" = Ok qs /\
    grade_all (answers_of st_answer_by_id "lecture.pdf") qs = Ok outs /\
    total (mkResult "0.0%" 0 1 [mkMismatch (JStr "2+2?") "" "4"] low_tier) = length qs /\
    Forall2 (fun q o => exists key ua canon,
        subscript q "question" = Ok key /\
        dict_get (answers_of st_answer_by_id "lecture.pdf") key (JStr "") = Ok (JStr ua) /\
        subscript q "answer" = Ok (JStr canon) /\
        o = outcome key ua canon) qs outs.
Proof.
  assert (H : get_results st_answer_by_id "lecture.pdf" =
              Ok (mkResult "0.0%" 0 1 [mkMismatch (JStr "2+2?") "" "4"] low_tier))
    by (vm_compute; reflexivity).
  split; [exact H|].
  exact (answers_looked_up_by_prompt _ _ _ H).
Defined.

(** Every error of [extract_text] is reported with status 400. *)
Lemma extract_text_status fitz_open Presentation Document b ext e :
  snd (extract_text fitz_open Presentation Document b ext) = Raise e ->
  status_code_of e = 400.
Proof.
  unfold extract_text.
  match goal with |- context [let '(_, _) := ?X in _] => destruct X as [t r] end.
  destruct r as [a|e']; simpl; intros H; [discriminate|].
  injection H as <-; reflexivity.
Qed.

Ltac extraction_case dec :=
  simpl; destruct dec; simpl;
  [ split; [intros [? Hx]; discriminate Hx
           | intros [Hx|[[Hy [? Hx]]|[[[Hy|Hy] [? Hx]]|[Hy [? Hx]]]]]; discriminate]
  | split; [intros _ | intros _; eexists; reflexivity]; eauto 10 ].

(** ** Extraction, generation and submission claims *)

(** Claim C6 fails: a PDF whose pages hold no text extracts to [""]
    without error, and its upload goes on to question generation and is
    stored (with either version of the OpenAI client). *)
Lemma empty_document_goes_to_generation :
  snd (extract_text (fun _ => Ok [""]) (fun _ => Raise DecoderError)
         (fun _ => Raise DecoderError) [] "pdf") = Ok "" /\
  Forall (fun has_openai_error : bool =>
    upload_file (fun _ => Ok [""]) (fun _ => Raise DecoderError)
      (fun _ => Raise DecoderError) (fun _ => Ok "{}") (fun _ => Some (JObj []))
      has_openai_error (mkState [] []) "empty.pdf" [] =
    (([CallFitzOpen []; CallChatCompletion ""],
      Ok (JObj [("filename", JStr "empty.pdf"); ("questions", JObj []);
                ("message", JStr "File processed successfully")])),
     mkState [("empty.pdf", JObj [("text", JStr ""); ("questions", JObj [])])] []))
    [true; false].
Proof.
  split; [vm_compute; reflexivity|].
  repeat apply Forall_cons; try apply Forall_nil; vm_compute; reflexivity.
Qed.

(** Claim C6 (amended): text extraction raises, always with status 400,
    exactly when the extension is not one of pdf, docx, pptx, ppt or the
    decoder for it fails on the bytes; a document that decodes is a
    success, even when its text is empty. *)
Theorem extract_text_fails_iff fitz_open Presentation Document b ext :
  ((exists e, snd (extract_text fitz_open Presentation Document b ext) = Raise e) <->
   (supported ext = false \/
    (ext = "pdf" /\ exists e, fitz_open b = Raise e) \/
    ((ext = "pptx" \/ ext = "ppt") /\ exists e, Presentation b = Raise e) \/
    (ext = "docx" /\ exists e, Document b = Raise e))) /\
  (forall e, snd (extract_text fitz_open Presentation Document b ext) = Raise e ->
   status_code_of e = 400).
Proof.
  split; [|apply extract_text_status].
  unfold extract_text, supported, SUPPORTED_EXTENSIONS.
  destruct (String.eqb ext "pdf") eqn:E1.
  { apply String.eqb_eq in E1; subst ext. extraction_case (fitz_open b). }
  destruct (String.eqb ext "pptx") eqn:E2.
  { apply String.eqb_eq in E2; subst ext. extraction_case (Presentation b). }
  destruct (String.eqb ext "ppt") eqn:E3.
  { apply String.eqb_eq in E3; subst ext. extraction_case (Presentation b). }
  destruct (String.eqb ext "docx") eqn:E4.
  { apply String.eqb_eq in E4; subst ext. extraction_case (Document b). }
  simpl; rewrite E1, E2, E3, E4; simpl.
  split; intros _; [left; reflexivity | eexists; reflexivity].
Qed.

Lemma extract_text_fails_iff_witness :
  snd (extract_text (fun _ => Ok [""]) (fun _ => Raise DecoderError)
         (fun _ => Raise DecoderError) [] "txt") =
    Raise (HTTPExceptionFrom 400 "Failed to process TXT file: "
             (ValueError "Unsupported file type: txt")) /\
  status_code_of (HTTPExceptionFrom 400 "Failed to process TXT file: "
                    (ValueError "Unsupported file type: txt")) = 400.
Proof.
  assert (H : snd (extract_text (fun _ => Ok [""]) (fun _ => Raise DecoderError)
                     (fun _ => Raise DecoderError) [] "txt") =
              Raise (HTTPExceptionFrom 400 "Failed to process TXT file: "
                       (ValueError "Unsupported file type: txt")))
    by (vm_compute; reflexivity).
  split; [exact H|].
  exact (proj2 (extract_text_fails_iff (fun _ => Ok [""]) (fun _ => Raise DecoderError)
                  (fun _ => Raise DecoderError) [] "txt") _ H).
Defined.

(** Claim C7 fails: the bytes of a legacy .ppt document go straight to the
    modern-slide decoder, which is the only external call made. *)
Lemma ppt_bytes_decoded_directly :
  extract_text (fun _ => Raise DecoderError) (fun _ => Ok [[Some "Intro"]])
    (fun _ => Raise DecoderError) legacy_ppt_bytes "ppt" =
  ([CallPresentation legacy_ppt_bytes], Ok "Intro").
Proof. vm_compute; reflexivity. Qed.

(** Claim C7 (amended): a document declared .ppt is handed, as uploaded,
    to the modern-slide decoder exactly like a .pptx one, also when it
    comes through [upload_file]; no conversion step exists, and a decoder
    failure is a 400 extraction error. *)
Theorem ppt_decoded_as_pptx fitz_open Presentation Document b :
  extract_text fitz_open Presentation Document b "ppt" =
  ([CallPresentation b],
   match Presentation b with
   | Ok prs => Ok (String.concat " " (shape_texts prs))
   | Raise e => Raise (HTTPExceptionFrom 400 "Failed to process PPT file: " e)
   end) /\
  fst (extract_text fitz_open Presentation Document b "pptx") = [CallPresentation b] /\
  (forall chat_completion json_loads has_openai_error st,
     hd_error (fst (fst (upload_file fitz_open Presentation Document chat_completion
                           json_loads has_openai_error st "slides.ppt" b))) =
     Some (CallPresentation b)).
Proof.
  split; [|split].
  - unfold extract_text; simpl; destruct (Presentation b); reflexivity.
  - reflexivity.
  - intros chat_completion json_loads has_openai_error st.
    unfold upload_file, extract_text, generate_exam_questions; simpl.
    destruct (Presentation b); simpl; [|reflexivity].
    destruct (bind _ _) as [j|e]; [reflexivity|].
    destruct has_openai_error; [destruct e|]; reflexivity.
Qed.

(** Claim C8 fails: a reply whose multiple-choice record has three options
    is accepted as the question set and stored (with either version of the
    OpenAI client). *)
Lemma three_option_question_accepted :
  Forall (fun has_openai_error : bool =>
    snd (generate_exam_questions (fun _ => Ok "reply")
           (fun _ => Some reply_three_options) has_openai_error "lecture") =
      Ok reply_three_options /\
    upload_file (fun _ => Ok ["lecture"]) (fun _ => Raise DecoderError)
      (fun _ => Raise DecoderError) (fun _ => Ok "reply")
      (fun _ => Some reply_three_options) has_openai_error (mkState [] []) "lecture.pdf" [] =
    (([CallFitzOpen []; CallChatCompletion "lecture"],
      Ok (JObj [("filename", JStr "lecture.pdf"); ("questions", reply_three_options);
                ("message", JStr "File processed successfully")])),
     mkState [("lecture.pdf", JObj [("text", JStr "lecture");
                                    ("questions", reply_three_options)])] []))
    [true; false].
Proof.
  repeat apply Forall_cons; try apply Forall_nil; split; vm_compute; reflexivity.
Qed.

(** Claim C8 (amended): the reply is accepted exactly when it parses as
    JSON, and the parsed value, whatever its fields and option counts, is
    the question set; a reply that does not parse fails with status 500
    (with either version of the OpenAI client). *)
Theorem generation_accepts_any_json chat_completion json_loads has_openai_error text :
  (forall j,
     snd (generate_exam_questions chat_completion json_loads has_openai_error text) = Ok j <->
     exists content, chat_completion (substring 0 3000 text) = Ok content /\
                     json_loads content = Some j) /\
  (forall content,
     chat_completion (substring 0 3000 text) = Ok content ->
     json_loads content = None ->
     exists e, snd (generate_exam_questions chat_completion json_loads has_openai_error text)
                 = Raise e /\
               status_code_of e = 500).
Proof.
  unfold generate_exam_questions; simpl.
  destruct (chat_completion (substring 0 3000 text)) as [content|e]; simpl.
  - destruct (json_loads content) as [j'|] eqn:Ej; split.
    + intros j; split; [intros H; injection H as <-; eauto|].
      intros [c [Hc Hj]]; injection Hc as <-; congruence.
    + intros c Hc Hn; injection Hc as <-; congruence.
    + intros j; split; [destruct has_openai_error; discriminate|].
      intros [c [Hc Hj]]; injection Hc as <-; congruence.
    + intros c _ _; destruct has_openai_error; eexists; split; reflexivity.
  - split.
    + intros j; split; [destruct has_openai_error; [destruct e|]; discriminate|].
      intros [c [Hc _]]; discriminate.
    + intros c Hc; discriminate.
Qed.

Lemma generation_accepts_any_json_witness :
  (fun _ : string => Ok "not json") (substring 0 3000 "lecture") = Ok "not json" /\
  (fun _ : string => @None json) "not json" = None /\
  exists e, snd (generate_exam_questions (fun _ => Ok "not json") (fun _ => None)
                   false "lecture") = Raise e /\ status_code_of e = 500.
Proof.
  split; [reflexivity|]; split; [reflexivity|].
  exact (proj2 (generation_accepts_any_json (fun _ => Ok "not json") (fun _ => None)
                  false "lecture") "not json" eq_refl eq_refl).
Defined.

(** Claim C9: an answer body that is not JSON leaves the stored answers
    unchanged, but the request fails with status 500, not 400: the 400
    [HTTPException] is caught by the handler's [except Exception]. *)
Theorem submit_non_json_is_500 json_loads st filename answers :
  json_loads answers = None ->
  submit_answers json_loads st filename answers =
    (Raise (HTTPExceptionFrom 500 "Failed to process answers: "
              (HTTPException 400 "Invalid answer format. Use JSON.")), st) /\
  status_code_of (HTTPExceptionFrom 500 "Failed to process answers: "
                    (HTTPException 400 "Invalid answer format. Use JSON.")) = 500.
Proof.
  intros H; unfold submit_answers; rewrite H; split; reflexivity.
Qed.

Lemma submit_non_json_is_500_witness :
  (fun _ : string => @None json) "not json" = None /\
  submit_answers (fun _ => None) (mkState [] [("lecture.pdf", JObj [])])
    "lecture.pdf" "not json" =
    (Raise (HTTPExceptionFrom 500 "Failed to process answers: "
              (HTTPException 400 "Invalid answer format. Use JSON.")),
     mkState [] [("lecture.pdf", JObj [])]) /\
  status_code_of (HTTPExceptionFrom 500 "Failed to process answers: "
                    (HTTPException 400 "Invalid answer format. Use JSON.")) = 500.
Proof.
  split; [reflexivity|].
  apply (submit_non_json_is_500 (fun _ => None)); reflexivity.
Defined.

(** ** Further properties of the code *)

Lemma grade_all_app_eq answers l1 l2 :
  grade_all answers (l1 ++ l2) =
  (o1 <- grade_all answers l1 ;; o2 <- grade_all answers l2 ;; Ok (o1 ++ o2)).
Proof.
  unfold grade_all; induction l1 as [|q l1 IH]; simpl.
  - destruct (mapM (grade_one answers) l2); reflexivity.
  - destruct (grade_one answers q) as [o|e]; simpl; [|reflexivity].
    rewrite IH. destruct (mapM (grade_one answers) l1); simpl; [|reflexivity].
    destruct (mapM (grade_one answers) l2); reflexivity.
Qed.

Lemma grade_questions_eq answers qs a :
  grade_questions answers qs a =
  match grade_all answers qs with
  | Ok outs => Ok (mkAcc (a_correct a + count_correct outs) (a_total a + length qs)
                         (a_feedback a ++ mismatches outs))
  | Raise e => Raise e
  end.
Proof.
  revert a; induction qs as [|q qs IH]; intros a; simpl.
  - destruct a; simpl; rewrite !Nat.add_0_r, app_nil_r; reflexivity.
  - unfold grade_all; simpl.
    destruct (grade_one answers q) as [o|e]; simpl; [|reflexivity].
    rewrite IH; unfold grade_all.
    destruct (mapM (grade_one answers) qs) as [outs|e]; simpl; [|reflexivity].
    destruct o as [m|]; simpl; f_equal; f_equal; try lia.
    rewrite <- app_assoc; reflexivity.
Qed.

Lemma grade_types_eq questions answers tys a qs :
  exam_questions_types questions tys = Ok qs ->
  grade_types questions answers tys a =
  match grade_all answers qs with
  | Ok outs => Ok (mkAcc (a_correct a + count_correct outs) (a_total a + length qs)
                         (a_feedback a ++ mismatches outs))
  | Raise e => Raise e
  end.
Proof.
  revert a qs; induction tys as [|ty tys IH]; intros a qs H; simpl in H |- *.
  - injection H as <-; simpl.
    destruct a; simpl; rewrite !Nat.add_0_r, app_nil_r; reflexivity.
  - destruct (questions_of questions ty) as [qs1|e]; simpl in H |- *;
      [|discriminate].
    destruct (exam_questions_types questions tys) as [qs2|e] eqn:E2; simpl in H;
      [|discriminate].
    injection H as <-.
    rewrite grade_questions_eq, grade_all_app_eq.
    destruct (grade_all answers qs1) as [o1|e]; simpl; [|reflexivity].
    rewrite (IH _ _ eq_refl).
    destruct (grade_all answers qs2) as [o2|e]; simpl; [|reflexivity].
    rewrite count_correct_app, mismatches_app, length_app, app_assoc.
    f_equal; f_equal; lia.
Qed.

Lemma grade_types_fail questions answers tys a e :
  exam_questions_types questions tys = Raise e ->
  exists e', grade_types questions answers tys a = Raise e'.
Proof.
  revert a e; induction tys as [|ty tys IH]; intros a e H; simpl in H |- *;
    [discriminate|].
  destruct (questions_of questions ty) as [qs1|e1]; simpl in H |- *; [|eauto].
  destruct (grade_questions answers qs1 a) as [a1|e1]; simpl; [|eauto].
  destruct (exam_questions_types questions tys) as [qs2|e2] eqn:E2; simpl in H;
    [discriminate|].
  apply (IH a1 e2 eq_refl).
Qed.

Lemma mapM_fail_in {A B} (f : A -> res B) l x e :
  In x l -> f x = Raise e -> exists e', mapM f l = Raise e'.
Proof.
  induction l as [|y l IH]; simpl; [tauto|].
  intros [->|Hin] Hf.
  - rewrite Hf; simpl; eauto.
  - destruct (f y); simpl; [|eauto].
    destruct (IH Hin Hf) as [e' ->]; simpl; eauto.
Qed.

Lemma Forall_firstn {A} (P : A -> Prop) n l : Forall P l -> Forall P (firstn n l).
Proof.
  revert l; induction n as [|n IH]; intros [|x l] H; simpl; auto.
  inversion H; subst; constructor; auto.
Qed.

(** Every failure of the results request is reported with status 500. *)
Lemma get_results_raise_status st filename e :
  get_results st filename = Raise e -> status_code_of e = 500.
Proof.
  unfold get_results, try_except.
  destruct (bind _ _); intros H; [discriminate|].
  injection H as <-; reflexivity.
Qed.

(** The results request succeeds exactly when every question of the
    stored set can be read and graded; then the result is the one computed
    from the questions' outcomes, and any failure is reported with status
    500. *)
Theorem get_results_ok_iff st filename r :
  (get_results st filename = Ok r <->
   exists qs outs,
     exam_questions st filename = Ok qs /\
     grade_all (answers_of st filename) qs = Ok outs /\
     r = mkResult (fmt1 (score_value (count_correct outs) (length qs)) ++ "%")
                  (count_correct outs) (length qs)
                  (firstn 5 (mismatches outs))
                  (suggestions_for (score_value (count_correct outs) (length qs)))) /\
  (forall e, get_results st filename = Raise e -> status_code_of e = 500).
Proof.
  split.
  - split.
    + intros H; destruct (get_results_ok _ _ _ H) as [qs [outs [Hq [Ho [_ Hr]]]]].
      exists qs, outs; auto.
    + intros [qs [outs [Hq [Ho ->]]]].
      unfold get_results, exam_questions, answers_of in *.
      rewrite (grade_types_eq _ _ _ _ _ Hq), Ho; reflexivity.
  - intros e; unfold get_results, try_except.
    destruct (bind _ _); intros H; [discriminate|].
    injection H as <-; reflexivity.
Qed.

(** A question the grader cannot read makes the whole request fail. *)
Lemma question_failure_fails_results st filename qs q e :
  exam_questions st filename = Ok qs -> In q qs ->
  grade_one (answers_of st filename) q = Raise e ->
  exists e', get_results st filename = Raise e' /\ status_code_of e' = 500.
Proof.
  intros Hq Hin Hg.
  destruct (mapM_fail_in _ _ _ _ Hin Hg) as [e1 He1].
  destruct (get_results st filename) as [r|e'] eqn:E.
  - destruct (get_results_ok _ _ _ E) as [qs' [outs [Hq' [Ho _]]]].
    rewrite Hq in Hq'; injection Hq' as <-.
    unfold grade_all in Ho; rewrite He1 in Ho; discriminate.
  - exists e'; split; [reflexivity|].
    apply (get_results_raise_status st filename); exact E.
Qed.

(** If the stored question set is not a JSON object (say the model
    answered with a list), every results request for it fails with 500. *)
Theorem questions_not_object_fails st filename root :
  dict_get (store_get (question_bank st) filename) (JStr "questions") (JObj []) = Ok root ->
  (forall kvs, root <> JObj kvs) ->
  exists e, get_results st filename = Raise e /\ status_code_of e = 500.
Proof.
  intros H Hroot.
  unfold get_results, q_types; cbv zeta; cbn [grade_types]; unfold questions_of;
  rewrite H; simpl.
  destruct root; try (eexists; split; reflexivity).
  exfalso; eapply Hroot; reflexivity.
Qed.

Lemma questions_not_object_fails_witness :
  dict_get (store_get (question_bank st_questions_list) "lecture.pdf") (JStr "questions")
    (JObj []) = Ok (JArr [q_arith]) /\
  (forall kvs, JArr [q_arith] <> JObj kvs) /\
  exists e, get_results st_questions_list "lecture.pdf" = Raise e /\ status_code_of e = 500.
Proof.
  assert (H1 : dict_get (store_get (question_bank st_questions_list) "lecture.pdf")
                 (JStr "questions") (JObj []) = Ok (JArr [q_arith])) by reflexivity.
  assert (H2 : forall kvs, JArr [q_arith] <> JObj kvs) by (intros kvs; discriminate).
  split; [exact H1|split; [exact H2|]].
  exact (questions_not_object_fails _ _ _ H1 H2).
Defined.

(** A submitted answer that is not a string (say the number [4]) stored
    under a question's prompt makes the results request fail with 500. *)
Theorem non_string_answer_fails st filename qs q k akvs v :
  exam_questions st filename = Ok qs -> In q qs ->
  subscript q "question" = Ok (JStr k) ->
  answers_of st filename = JObj akvs -> assoc_get k akvs = Some v ->
  (forall s, v <> JStr s) ->
  exists e, get_results st filename = Raise e /\ status_code_of e = 500.
Proof.
  intros Hq Hin Hk Ha Hv Hns.
  apply (question_failure_fails_results _ _ _ _ AttributeError Hq Hin).
  unfold grade_one; rewrite Hk, Ha; simpl; rewrite Hv; simpl.
  destruct v; try reflexivity. exfalso; eapply Hns; reflexivity.
Qed.

Lemma non_string_answer_fails_witness :
  answers_of st_number_answer "lecture.pdf" = JObj [("2+2?", JNum (4 # 1)%Q)] /\
  exists e, get_results st_number_answer "lecture.pdf" = Raise e /\ status_code_of e = 500.
Proof.
  split; [reflexivity|].
  apply (non_string_answer_fails st_number_answer "lecture.pdf" [q_arith] q_arith "2+2?"
           [("2+2?", JNum (4 # 1)%Q)] (JNum (4 # 1)%Q));
    [vm_compute; reflexivity|simpl; left; reflexivity|reflexivity|reflexivity|reflexivity|].
  intros s0; discriminate.
Defined.

(** A question record without a ["question"] key, or without an
    ["answer"] key, makes the results request fail with 500, whatever the
    other fields of the record and whatever the submission holds. *)
Theorem question_without_key_fails st filename qs qkvs :
  exam_questions st filename = Ok qs -> In (JObj qkvs) qs ->
  assoc_get "question" qkvs = None \/ assoc_get "answer" qkvs = None ->
  exists e, get_results st filename = Raise e /\ status_code_of e = 500.
Proof.
  intros Hq Hin Hmiss.
  destruct (grade_one (answers_of st filename) (JObj qkvs)) as [o|e] eqn:Eg.
  - exfalso.
    destruct (grade_one_ok _ _ _ Eg) as [key [ua [canon [H1 [_ [H3 _]]]]]].
    unfold subscript in H1, H3.
    destruct Hmiss as [Hn|Hn]; rewrite Hn in *; discriminate.
  - exact (question_failure_fails_results _ _ _ _ e Hq Hin Eg).
Qed.

Lemma question_without_key_fails_witness :
  exam_questions st_missing_answer "lecture.pdf" = Ok [q_no_answer] /\
  assoc_get "answer" [("question", JNum (4 # 1)%Q)] = @None json /\
  exists e, get_results st_missing_answer "lecture.pdf" = Raise e /\ status_code_of e = 500.
Proof.
  assert (Hq : exam_questions st_missing_answer "lecture.pdf" = Ok [q_no_answer])
    by (vm_compute; reflexivity).
  assert (Hn : assoc_get "answer" [("question", JNum (4 # 1)%Q)] = @None json)
    by reflexivity.
  split; [exact Hq|split; [exact Hn|]].
  exact (question_without_key_fails st_missing_answer "lecture.pdf" [q_no_answer]
           [("question", JNum (4 # 1)%Q)] Hq (or_introl eq_refl) (or_intror Hn)).
Defined.

(** A stored question set that has none of the keys ["multiple_choice"],
    ["fill_in"], ["short_answer"] grades as an empty exam. *)
Theorem questions_without_known_keys_empty st filename kvs :
  dict_get (store_get (question_bank st) filename) (JStr "questions") (JObj []) =
    Ok (JObj kvs) ->
  assoc_get "multiple_choice" kvs = None ->
  assoc_get "fill_in" kvs = None ->
  assoc_get "short_answer" kvs = None ->
  get_results st filename = Ok (mkResult "0.0%" 0 0 [] low_tier).
Proof.
  intros H H1 H2 H3.
  unfold get_results, q_types; cbv zeta; cbn [grade_types]; unfold questions_of;
  rewrite H; simpl.
  rewrite H1, H2, H3; reflexivity.
Qed.

Lemma questions_without_known_keys_empty_witness :
  get_results st_unknown_keys "lecture.pdf" = Ok (mkResult "0.0%" 0 0 [] low_tier).
Proof.
  apply (questions_without_known_keys_empty st_unknown_keys "lecture.pdf"
           [("mcq", JArr [q_arith])]); reflexivity.
Defined.

Lemma firstn_5_nil {A} (l : list A) : firstn 5 l = [] <-> l = [].
Proof. destruct l; simpl; split; congruence. Qed.

(** The counters of a graded exam: at most [total] correct answers, one
    feedback entry per wrong answer up to five, and no feedback exactly
    when every answer is correct. *)
Theorem result_counts st filename r :
  get_results st filename = Ok r ->
  correct r <= total r /\
  length (feedback r) = Nat.min 5 (total r - correct r) /\
  (feedback r = [] <-> correct r = total r).
Proof.
  intros H.
  destruct (get_results_ok _ _ _ H) as [qs [outs [Hq [Ho [Hlen ->]]]]].
  cbn [correct total feedback].
  pose proof (count_correct_mismatches outs) as Hc.
  split; [lia|split].
  - rewrite length_firstn; f_equal; lia.
  - rewrite firstn_5_nil; split; intros H1.
    + rewrite H1 in Hc; simpl in Hc; lia.
    + destruct (mismatches outs); [reflexivity|simpl in Hc; lia].
Qed.

Lemma result_counts_witness :
  get_results st_three_of_four "lecture.pdf" = Ok result_three_of_four /\
  correct result_three_of_four <= total result_three_of_four /\
  length (feedback result_three_of_four) =
    Nat.min 5 (total result_three_of_four - correct result_three_of_four) /\
  (feedback result_three_of_four = [] <->
   correct result_three_of_four = total result_three_of_four).
Proof.
  assert (H : get_results st_three_of_four "lecture.pdf" = Ok result_three_of_four)
    by (vm_compute; reflexivity).
  split; [exact H|exact (result_counts _ _ _ H)].
Defined.

Lemma mismatches_outcomes answers qs outs :
  Forall2 (fun q o => exists key ua canon,
      subscript q "question" = Ok key /\
      dict_get answers key (JStr "") = Ok (JStr ua) /\
      subscript q "answer" = Ok (JStr canon) /\
      o = outcome key ua canon) qs outs ->
  Forall (fun m => exists q ua canon,
      In q qs /\
      subscript q "question" = Ok (m_question m) /\
      dict_get answers (m_question m) (JStr "") = Ok (JStr ua) /\
      subscript q "answer" = Ok (JStr canon) /\
      your_answer m = lower (strip ua) /\ correct_answer m = lower (strip canon) /\
      your_answer m <> correct_answer m) (mismatches outs).
Proof.
  induction 1 as [|q o qs outs [key [ua [canon [H1 [H2 [H3 ->]]]]]] _ IH];
    simpl; [constructor|].
  assert (IH' : Forall (fun m => exists q' ua' canon',
      In q' (q :: qs) /\
      subscript q' "question" = Ok (m_question m) /\
      dict_get answers (m_question m) (JStr "") = Ok (JStr ua') /\
      subscript q' "answer" = Ok (JStr canon') /\
      your_answer m = lower (strip ua') /\ correct_answer m = lower (strip canon') /\
      your_answer m <> correct_answer m) (mismatches outs)).
  { eapply Forall_impl; [|exact IH].
    intros m [q' [ua' [canon' [Hin Hr]]]].
    exists q', ua', canon'; split; [right; exact Hin|exact Hr]. }
  unfold outcome, normalize.
  destruct (String.eqb_spec (lower (strip ua)) (lower (strip canon))) as [E|E];
    [exact IH'|].
  constructor; [|exact IH'].
  exists q, ua, canon; simpl.
  split; [left; reflexivity|]; repeat split; assumption.
Qed.

(** Every feedback entry comes from a question of the stored exam: it
    names the question's prompt, and shows the answer submitted under that
    prompt and the question's canonical answer, both stripped and
    lower-cased, which differ. *)
Theorem feedback_entries_normalized st filename r :
  get_results st filename = Ok r ->
  exists qs, exam_questions st filename = Ok qs /\
  Forall (fun m => exists q ua canon,
      In q qs /\
      subscript q "question" = Ok (m_question m) /\
      dict_get (answers_of st filename) (m_question m) (JStr "") = Ok (JStr ua) /\
      subscript q "answer" = Ok (JStr canon) /\
      your_answer m = lower (strip ua) /\ correct_answer m = lower (strip canon) /\
      your_answer m <> correct_answer m) (feedback r).
Proof.
  intros H.
  destruct (get_results_ok _ _ _ H) as [qs [outs [Hq [Ho [_ ->]]]]].
  exists qs; split; [exact Hq|].
  apply Forall_firstn, (mismatches_outcomes (answers_of st filename) qs),
    grade_all_outcomes, Ho.
Qed.

Lemma feedback_entries_normalized_witness :
  get_results st_three_of_four "lecture.pdf" = Ok result_three_of_four /\
  exists qs, exam_questions st_three_of_four "lecture.pdf" = Ok qs /\
  Forall (fun m => exists q ua canon,
      In q qs /\
      subscript q "question" = Ok (m_question m) /\
      dict_get (answers_of st_three_of_four "lecture.pdf") (m_question m) (JStr "") =
        Ok (JStr ua) /\
      subscript q "answer" = Ok (JStr canon) /\
      your_answer m = lower (strip ua) /\ correct_answer m = lower (strip canon) /\
      your_answer m <> correct_answer m) (feedback result_three_of_four).
Proof.
  assert (H : get_results st_three_of_four "lecture.pdf" = Ok result_three_of_four)
    by (vm_compute; reflexivity).
  split; [exact H|exact (feedback_entries_normalized _ _ _ H)].
Defined.

Lemma fmt1_full n : 0 < n -> fmt1 (score_value n n) = "100.0".
Proof.
  destruct n as [|n']; [lia|]; intros _.
  rewrite score_value_full; vm_compute; reflexivity.
Qed.

(** A non-empty exam answered all correctly scores ["100.0%"] with the
    top-tier suggestions; one answered all wrongly scores ["0.0%"] with the
    lowest tier. *)
Theorem all_or_none_correct st filename r :
  get_results st filename = Ok r -> 0 < total r ->
  (correct r = total r -> score r = "100.0%" /\ suggestions r = high_tier) /\
  (correct r = 0 -> score r = "0.0%" /\ suggestions r = low_tier).
Proof.
  intros H Ht.
  destruct (get_results_ok _ _ _ H) as [qs [outs [Hq [Ho [_ ->]]]]].
  cbn [correct total score suggestions] in *.
  destruct (length qs) as [|n'] eqn:En; [lia|].
  split; intros Hc; rewrite Hc.
  - rewrite fmt1_full by lia; split; [reflexivity|].
    apply (proj2 (proj2 (suggestions_for_tiers _))).
    rewrite score_value_full; unfold Qle; cbn [Qnum Qden]; lia.
  - split; [reflexivity|].
    apply (proj1 (suggestions_for_tiers _)); reflexivity.
Qed.

Lemma all_or_none_correct_witness :
  get_results st_all_correct "lecture.pdf" = Ok (mkResult "100.0%" 2 2 [] high_tier) /\
  (2 = 2 -> "100.0%" = "100.0%" /\ high_tier = high_tier) /\
  (2 = 0 -> "100.0%" = "0.0%" /\ high_tier = low_tier).
Proof.
  assert (H : get_results st_all_correct "lecture.pdf" =
              Ok (mkResult "100.0%" 2 2 [] high_tier)) by (vm_compute; reflexivity).
  split; [exact H|].
  exact (all_or_none_correct _ _ _ H ltac:(simpl; lia)).
Defined.

(** ** The two stores: [d[k] = v] followed by [d.get(k)] *)

Lemma assoc_get_fold {A} (k : string) (kvs : list (string * A)) acc :
  fold_left (fun acc kv => if String.eqb (fst kv) k then Some (snd kv) else acc) kvs acc =
  match assoc_get k kvs with Some v => Some v | None => acc end.
Proof.
  unfold assoc_get; revert acc; induction kvs as [|[k' v'] rest IH]; intros acc;
    [reflexivity|].
  simpl; rewrite IH, (IH (if String.eqb k' k then Some v' else None)).
  destruct (fold_left _ rest None); [reflexivity|].
  destruct (String.eqb k' k); reflexivity.
Qed.

Lemma assoc_get_cons {A} (k k' : string) (v' : A) rest :
  assoc_get k ((k', v') :: rest) =
  match assoc_get k rest with
  | Some v => Some v
  | None => if String.eqb k' k then Some v' else None
  end.
Proof. unfold assoc_get at 1; simpl; apply assoc_get_fold. Qed.

Lemma assoc_get_not_in {A} (k : string) (kvs : list (string * A)) :
  ~ In k (map fst kvs) -> assoc_get k kvs = None.
Proof.
  induction kvs as [|[k' v'] rest IH]; intros Hn; [reflexivity|].
  rewrite assoc_get_cons, IH by (intros Hin; apply Hn; right; exact Hin).
  destruct (String.eqb_spec k' k) as [->|]; [exfalso; apply Hn; left; reflexivity|].
  reflexivity.
Qed.

Lemma assoc_get_set_same {A} (k : string) (v : A) kvs :
  NoDup (map fst kvs) -> assoc_get k (assoc_set k v kvs) = Some v.
Proof.
  induction kvs as [|[k' v'] rest IH]; intros Hnd; simpl in *.
  - unfold assoc_get; simpl; rewrite String.eqb_refl; reflexivity.
  - inversion Hnd as [|x l Hn Hnd' Heq]; subst.
    destruct (String.eqb_spec k' k) as [->|Hne].
    + rewrite assoc_get_cons, assoc_get_not_in, String.eqb_refl by exact Hn.
      reflexivity.
    + rewrite assoc_get_cons, IH by exact Hnd'; reflexivity.
Qed.

Lemma assoc_get_set_other {A} (k k0 : string) (v : A) kvs :
  k0 <> k -> assoc_get k0 (assoc_set k v kvs) = assoc_get k0 kvs.
Proof.
  intros Hne; induction kvs as [|[k' v'] rest IH]; simpl.
  - unfold assoc_get; simpl.
    destruct (String.eqb_spec k k0); [congruence|reflexivity].
  - destruct (String.eqb_spec k' k) as [->|]; rewrite !assoc_get_cons.
    + destruct (assoc_get k0 rest); [reflexivity|].
      destruct (String.eqb_spec k k0); [congruence|reflexivity].
    + rewrite IH; reflexivity.
Qed.

Lemma assoc_set_keys {A} (k x : string) (v : A) kvs :
  In x (map fst (assoc_set k v kvs)) <-> x = k \/ In x (map fst kvs).
Proof.
  induction kvs as [|[k' v'] rest IH]; simpl.
  - intuition.
  - destruct (String.eqb_spec k' k) as [->|]; simpl; [intuition|].
    rewrite IH; intuition.
Qed.

Lemma assoc_set_nodup {A} (k : string) (v : A) kvs :
  NoDup (map fst kvs) -> NoDup (map fst (assoc_set k v kvs)).
Proof.
  induction kvs as [|[k' v'] rest IH]; intros Hnd; simpl in *.
  - constructor; [intros []|constructor].
  - inversion Hnd as [|x l Hn Hnd' Heq]; subst.
    destruct (String.eqb_spec k' k) as [->|Hne]; simpl; [constructor; assumption|].
    constructor; [|apply IH, Hnd'].
    rewrite assoc_set_keys; intros [E|E]; [congruence|contradiction].
Qed.

Lemma store_get_set_same (k : string) v kvs :
  NoDup (map fst kvs) -> store_get (assoc_set k v kvs) k = v.
Proof. intros H; unfold store_get; rewrite assoc_get_set_same by exact H; reflexivity. Qed.

Lemma store_get_set_other (k k0 : string) v kvs :
  k0 <> k -> store_get (assoc_set k v kvs) k0 = store_get kvs k0.
Proof. intros H; unfold store_get; rewrite assoc_get_set_other by exact H; reflexivity. Qed.

(** [get_results] reads nothing of the stores but the two entries of the
    file. *)
Lemma get_results_local st st' filename :
  store_get (question_bank st) filename = store_get (question_bank st') filename ->
  store_get (student_answers st) filename = store_get (student_answers st') filename ->
  get_results st filename = get_results st' filename.
Proof. intros H1 H2; unfold get_results; rewrite H1, H2; reflexivity. Qed.

(** ** Upload *)

(** FastAPI answers [upload_handler e] with the status of [e]. *)
Lemma upload_handler_status e : status_code_of (upload_handler e) = status_code_of e.
Proof. destruct e; reflexivity. Qed.

(** How question generation fails: with the client before 1.0 always with
    an [HTTPException], with status 401 exactly when the client rejects the
    API key and 500 otherwise; with a 1.x client always with
    [AttributeError] (status 500). *)
Lemma generation_failure_shape chat_completion json_loads has_openai_error text e :
  snd (generate_exam_questions chat_completion json_loads has_openai_error text) = Raise e ->
  is_http_exception e = has_openai_error /\
  (has_openai_error = false -> e = AttributeError) /\
  (status_code_of e = 401 <->
   has_openai_error = true /\
   chat_completion (substring 0 3000 text) = Raise AuthenticationError) /\
  (status_code_of e = 401 \/ status_code_of e = 500).
Proof.
  unfold generate_exam_questions; cbn [snd].
  destruct (chat_completion (substring 0 3000 text)) as [c|e0]; cbn [bind].
  - destruct (json_loads c); intros H; [discriminate|].
    destruct has_openai_error; injection H as <-;
      (split; [reflexivity|]; split;
       [intros Hx; (discriminate Hx || reflexivity)|];
       split; [split; [intros Hx; discriminate Hx|intros [_ Hx]; discriminate Hx]|];
       right; reflexivity).
  - intros H; destruct has_openai_error; [destruct e0|]; injection H as <-;
      (split; [reflexivity|]; split;
       [intros Hx; (discriminate Hx || reflexivity)|];
       split;
       [split; [intros Hx; (discriminate Hx || (split; reflexivity))
               |intros [Hx Hy]; (discriminate Hx || discriminate Hy || reflexivity)]|];
       (left; reflexivity) || (right; reflexivity)).
Qed.

(** Question generation fails, with the OpenAI client before 1.0, only with
    an [HTTPException]: status 401 exactly when the client rejects the API
    key, 500 otherwise. With the pinned 1.x client ([has_openai_error =
    false]) every failure becomes [AttributeError], because the clause
    [except openai.error.AuthenticationError] cannot be evaluated; FastAPI
    answers it with status 500 and 401 never occurs. *)
Theorem generation_error_status chat_completion json_loads has_openai_error text e :
  snd (generate_exam_questions chat_completion json_loads has_openai_error text) = Raise e ->
  is_http_exception e = has_openai_error /\
  (has_openai_error = false -> e = AttributeError) /\
  (status_code_of e = 401 <->
   has_openai_error = true /\
   chat_completion (substring 0 3000 text) = Raise AuthenticationError) /\
  (status_code_of e = 401 \/ status_code_of e = 500).
Proof. apply generation_failure_shape. Qed.

Lemma generation_error_status_witness :
  snd (generate_exam_questions key_rejected parse_reply false "lecture") = Raise AttributeError /\
  is_http_exception AttributeError = false /\
  (false = false -> AttributeError = AttributeError) /\
  (status_code_of AttributeError = 401 <->
   false = true /\ key_rejected (substring 0 3000 "lecture") = Raise AuthenticationError) /\
  (status_code_of AttributeError = 401 \/ status_code_of AttributeError = 500).
Proof.
  assert (H : snd (generate_exam_questions key_rejected parse_reply false "lecture") =
              Raise AttributeError) by reflexivity.
  split; [exact H|].
  exact (generation_error_status _ _ _ _ _ H).
Defined.

(** A failed upload stores nothing. Its status is 400 exactly when the
    extension is not supported or the document cannot be decoded, 401
    exactly when the document decodes, the OpenAI client is one before 1.0
    and it rejects the API key, and 500 otherwise. *)
Theorem upload_failure_keeps_state fitz_open Presentation Document chat_completion
    json_loads has_openai_error st filename b t e st' :
  upload_file fitz_open Presentation Document chat_completion json_loads has_openai_error
    st filename b = ((t, Raise e), st') ->
  st' = st /\
  (status_code_of e = 400 <->
   supported (file_extension filename) = false \/
   exists e0, snd (extract_text fitz_open Presentation Document b
                     (file_extension filename)) = Raise e0) /\
  (status_code_of e = 401 <->
   supported (file_extension filename) = true /\ has_openai_error = true /\
   exists text, snd (extract_text fitz_open Presentation Document b
                       (file_extension filename)) = Ok text /\
                chat_completion (substring 0 3000 text) = Raise AuthenticationError) /\
  (status_code_of e = 400 \/ status_code_of e = 401 \/ status_code_of e = 500).
Proof.
  unfold upload_file.
  destruct (supported (file_extension filename)) eqn:Es; cbn [negb].
  2:{ intros H; injection H as _ <- <-; simpl.
      split; [reflexivity|]; split; [split; [intros _; left; reflexivity|intros _; reflexivity]|].
      split; [split; [discriminate|intros [Hx _]; discriminate]|left; reflexivity]. }
  destruct (extract_text fitz_open Presentation Document b (file_extension filename))
    as [t1 [text|e1]] eqn:Ex.
  - destruct (generate_exam_questions chat_completion json_loads has_openai_error text)
      as [t2 [qs|e2]] eqn:Eg; intros H; [discriminate|].
    injection H as _ <- <-.
    assert (Hg : snd (generate_exam_questions chat_completion json_loads has_openai_error text)
                 = Raise e2) by (rewrite Eg; reflexivity).
    destruct (generation_failure_shape _ _ _ _ _ Hg) as [_ [_ [H401 Hst]]].
    rewrite upload_handler_status; split; [reflexivity|]; split; [|split; [|tauto]].
    + split; [intros Hx; destruct Hst; lia|].
      intros [Hx|[e0 Hx]]; discriminate.
    + rewrite H401; split.
      * intros [Hh Hc]; split; [reflexivity|split; [exact Hh|exists text; auto]].
      * intros [_ [Hh [text' [Ht Hc]]]]; injection Ht as <-; split; [exact Hh|exact Hc].
  - intros H; injection H as _ <- <-.
    assert (Hx : snd (extract_text fitz_open Presentation Document b
                        (file_extension filename)) = Raise e1)
      by (rewrite Ex; reflexivity).
    pose proof (extract_text_status _ _ _ _ _ _ Hx) as H400.
    rewrite upload_handler_status, H400; split; [reflexivity|]; split; [|split].
    + split; [intros _; right; exists e1; reflexivity|intros _; reflexivity].
    + split; [discriminate|intros [_ [_ [text' [Ht _]]]]; discriminate].
    + left; reflexivity.
Qed.

Lemma upload_failure_keeps_state_witness :
  upload_file one_page_pdf no_decoder no_decoder key_rejected parse_reply true
    st_other_file "notes.v2.PDF" [] =
    (([CallFitzOpen []; CallChatCompletion "Two plus two is four."],
      Raise (HTTPException 401 "Invalid OpenAI API key. Check your configuration.")),
     st_other_file) /\
  supported (file_extension "notes.v2.PDF") = true /\ true = true /\
  exists text, snd (extract_text one_page_pdf no_decoder no_decoder []
                      (file_extension "notes.v2.PDF")) = Ok text /\
               key_rejected (substring 0 3000 text) = Raise AuthenticationError.
Proof.
  assert (H : upload_file one_page_pdf no_decoder no_decoder key_rejected parse_reply true
                st_other_file "notes.v2.PDF" [] =
              (([CallFitzOpen []; CallChatCompletion "Two plus two is four."],
                Raise (HTTPException 401 "Invalid OpenAI API key. Check your configuration.")),
               st_other_file)) by (vm_compute; reflexivity).
  split; [exact H|].
  apply (proj1 (proj1 (proj2 (proj2 (upload_failure_keeps_state _ _ _ _ _ _ _ _ _ _ _ _ H))))).
  reflexivity.
Defined.

(** A successful upload stores [{"text": text, "questions": questions}]
    under the filename, replacing any earlier entry for it, and changes
    nothing else: the other files' entries and all submitted answers are
    kept, and the store keeps one entry per filename. *)
Theorem upload_success_stores fitz_open Presentation Document chat_completion json_loads
    has_openai_error st filename b t resp st' :
  NoDup (map fst (question_bank st)) ->
  upload_file fitz_open Presentation Document chat_completion json_loads has_openai_error st filename b =
    ((t, Ok resp), st') ->
  exists text questions,
    snd (extract_text fitz_open Presentation Document b (file_extension filename)) =
      Ok text /\
    snd (generate_exam_questions chat_completion json_loads has_openai_error text) = Ok questions /\
    resp = JObj [("filename", JStr filename); ("questions", questions);
                 ("message", JStr "File processed successfully")] /\
    assoc_get filename (question_bank st') =
      Some (JObj [("text", JStr text); ("questions", questions)]) /\
    (forall f, f <> filename ->
       assoc_get f (question_bank st') = assoc_get f (question_bank st)) /\
    student_answers st' = student_answers st /\
    NoDup (map fst (question_bank st')).
Proof.
  intros Hnd; unfold upload_file.
  destruct (supported (file_extension filename)) eqn:Es; cbn [negb]; [|discriminate].
  destruct (extract_text fitz_open Presentation Document b (file_extension filename))
    as [t1 [text|e1]] eqn:Ex; [|discriminate].
  destruct (generate_exam_questions chat_completion json_loads has_openai_error text)
    as [t2 [qs|e2]] eqn:Eg; [|discriminate].
  intros H; injection H as _ <- <-.
  exists text, qs; rewrite Eg; cbn [snd question_bank student_answers].
  split; [reflexivity|]; split; [reflexivity|]; split; [reflexivity|].
  split; [apply assoc_get_set_same, Hnd|].
  split; [intros f Hf; apply assoc_get_set_other, Hf|].
  split; [reflexivity|apply assoc_set_nodup, Hnd].
Qed.

Lemma upload_success_stores_witness :
  NoDup (map fst (question_bank st_other_file)) /\
  assoc_get "notes.v2.PDF" (question_bank (snd (upload_file one_page_pdf no_decoder no_decoder reply_one_question parse_reply true
      st_other_file "notes.v2.PDF" []))) =
    Some (JObj [("text", JStr "Two plus two is four."); ("questions", qset_one)]) /\
  assoc_get "old.pdf" (question_bank (snd (upload_file one_page_pdf no_decoder no_decoder reply_one_question parse_reply true
      st_other_file "notes.v2.PDF" []))) =
    assoc_get "old.pdf" (question_bank st_other_file).
Proof.
  assert (Hn : NoDup (map fst (question_bank st_other_file)))
    by (simpl; constructor; [intros []|constructor]).
  assert (H : upload_file one_page_pdf no_decoder no_decoder reply_one_question parse_reply true
      st_other_file "notes.v2.PDF" [] =
              ((fst (fst (upload_file one_page_pdf no_decoder no_decoder reply_one_question parse_reply true
      st_other_file "notes.v2.PDF" [])),
                Ok (JObj [("filename", JStr "notes.v2.PDF"); ("questions", qset_one);
                          ("message", JStr "File processed successfully")])),
               snd (upload_file one_page_pdf no_decoder no_decoder reply_one_question parse_reply true
      st_other_file "notes.v2.PDF" []))) by (vm_compute; reflexivity).
  destruct (upload_success_stores _ _ _ _ _ _ _ _ _ _ _ _ Hn H)
    as [text [qs [Hx [Hg [_ [Hs [Ho _]]]]]]].
  vm_compute in Hx, Hg; injection Hx as <-; injection Hg as <-.
  split; [exact Hn|split; [exact Hs|apply Ho; discriminate]].
Defined.

(** ** Submission *)

(** Submitting JSON answers replaces the file's answers by the parsed
    value, with nothing merged from an earlier submission; the other files'
    answers and the question bank are kept. *)
Theorem submit_replaces_answers json_loads st filename answers d :
  NoDup (map fst (student_answers st)) ->
  json_loads answers = Some d ->
  fst (submit_answers json_loads st filename answers) =
    Ok (JObj [("message", JStr "Answers submitted successfully")]) /\
  answers_of (snd (submit_answers json_loads st filename answers)) filename = d /\
  (forall f, f <> filename ->
     answers_of (snd (submit_answers json_loads st filename answers)) f = answers_of st f) /\
  question_bank (snd (submit_answers json_loads st filename answers)) = question_bank st /\
  NoDup (map fst (student_answers (snd (submit_answers json_loads st filename answers)))).
Proof.
  intros Hnd Hd; unfold submit_answers, answers_of; rewrite Hd; simpl.
  split; [reflexivity|]; split; [apply store_get_set_same, Hnd|].
  split; [intros f Hf; apply store_get_set_other, Hf|].
  split; [reflexivity|apply assoc_set_nodup, Hnd].
Qed.

Lemma submit_replaces_answers_witness :
  NoDup (map fst (student_answers st_other_file)) /\
  parse_reply "answers" = Some (JObj [("2+2?", JStr "4")]) /\
  answers_of (snd (submit_answers parse_reply st_other_file "old.pdf" "answers")) "old.pdf" =
    JObj [("2+2?", JStr "4")].
Proof.
  assert (Hn : NoDup (map fst (student_answers st_other_file)))
    by (simpl; constructor; [intros []|constructor]).
  assert (Hd : parse_reply "answers" = Some (JObj [("2+2?", JStr "4")])) by reflexivity.
  split; [exact Hn|split; [exact Hd|]].
  exact (proj1 (proj2 (submit_replaces_answers _ _ _ _ _ Hn Hd))).
Defined.

(** ** Upload, submission and results together *)

(** Once a file has been uploaded and answers for it submitted, its
    results are those of a store holding only that upload's entry (the
    text extracted from the uploaded bytes and the question set generated
    from it, which the upload also returned) and the submitted answers:
    earlier uploads, earlier submissions and the other files do not
    matter. *)
Theorem results_after_upload_and_submit fitz_open Presentation Document chat_completion
    json_loads has_openai_error st filename b t resp st1 answers d :
  NoDup (map fst (question_bank st)) ->
  NoDup (map fst (student_answers st)) ->
  upload_file fitz_open Presentation Document chat_completion json_loads has_openai_error st filename b =
    ((t, Ok resp), st1) ->
  json_loads answers = Some d ->
  exists text questions,
    snd (extract_text fitz_open Presentation Document b (file_extension filename)) =
      Ok text /\
    snd (generate_exam_questions chat_completion json_loads has_openai_error text) = Ok questions /\
    resp = JObj [("filename", JStr filename); ("questions", questions);
                 ("message", JStr "File processed successfully")] /\
    get_results (snd (submit_answers json_loads st1 filename answers)) filename =
    get_results (mkState [(filename, JObj [("text", JStr text); ("questions", questions)])]
                         [(filename, d)]) filename.
Proof.
  intros Hq Ha; unfold upload_file.
  destruct (supported (file_extension filename)) eqn:Es; cbn [negb]; [|discriminate].
  destruct (extract_text fitz_open Presentation Document b (file_extension filename))
    as [t1 [text|e1]] eqn:Ex; [|discriminate].
  destruct (generate_exam_questions chat_completion json_loads has_openai_error text)
    as [t2 [qs|e2]] eqn:Eg; [|discriminate].
  intros H Hd; injection H as _ <- <-.
  exists text, qs; rewrite Eg; split; [reflexivity|]; split; [reflexivity|].
  split; [reflexivity|].
  apply get_results_local; unfold submit_answers; rewrite Hd; cbv zeta iota beta;
    cbn [snd question_bank student_answers].
  - rewrite store_get_set_same by exact Hq.
    symmetry; apply (store_get_set_same filename _ []); constructor.
  - rewrite store_get_set_same by exact Ha.
    symmetry; apply (store_get_set_same filename _ []); constructor.
Qed.

Lemma results_after_upload_and_submit_witness :
  exists text questions,
    snd (extract_text one_page_pdf no_decoder no_decoder [] (file_extension "notes.v2.PDF")) =
      Ok text /\
    snd (generate_exam_questions reply_one_question parse_reply true text) = Ok questions /\
    JObj [("filename", JStr "notes.v2.PDF"); ("questions", qset_one);
          ("message", JStr "File processed successfully")] =
    JObj [("filename", JStr "notes.v2.PDF"); ("questions", questions);
          ("message", JStr "File processed successfully")] /\
    get_results (snd (submit_answers parse_reply (snd (upload_file one_page_pdf no_decoder no_decoder reply_one_question parse_reply true
      st_other_file "notes.v2.PDF" [])) "notes.v2.PDF" "answers"))
      "notes.v2.PDF" =
    get_results (mkState [("notes.v2.PDF",
                           JObj [("text", JStr text); ("questions", questions)])]
                         [("notes.v2.PDF", JObj [("2+2?", JStr "4")])]) "notes.v2.PDF".
Proof.
  assert (Hq : NoDup (map fst (question_bank st_other_file)))
    by (simpl; constructor; [intros []|constructor]).
  assert (Ha : NoDup (map fst (student_answers st_other_file)))
    by (simpl; constructor; [intros []|constructor]).
  assert (H : upload_file one_page_pdf no_decoder no_decoder reply_one_question parse_reply true
      st_other_file "notes.v2.PDF" [] =
              ((fst (fst (upload_file one_page_pdf no_decoder no_decoder reply_one_question parse_reply true
      st_other_file "notes.v2.PDF" [])),
                Ok (JObj [("filename", JStr "notes.v2.PDF"); ("questions", qset_one);
                          ("message", JStr "File processed successfully")])),
               snd (upload_file one_page_pdf no_decoder no_decoder reply_one_question parse_reply true
      st_other_file "notes.v2.PDF" []))) by (vm_compute; reflexivity).
  exact (results_after_upload_and_submit _ _ _ _ _ _ _ _ _ _ _ _ "answers" _ Hq Ha H
           (eq_refl : parse_reply "answers" = Some (JObj [("2+2?", JStr "4")]))).
Defined.

Lemma substring_prefix n s :
  String.length (substring 0 n s) = Nat.min n (String.length s) /\
  exists rest, s = (substring 0 n s ++ rest)%string.
Proof.
  revert n; induction s as [|c s IH]; intros [|n]; simpl.
  - split; [reflexivity|exists ""; reflexivity].
  - split; [reflexivity|exists ""; reflexivity].
  - split; [reflexivity|exists (String c s); reflexivity].
  - destruct (IH n) as [Hl [rest Hr]]; split; [rewrite Hl; reflexivity|].
    exists rest; rewrite Hr at 1; reflexivity.
Qed.

Lemma extract_text_ok_trace fitz_open Presentation Document b ext text :
  snd (extract_text fitz_open Presentation Document b ext) = Ok text ->
  exists c, fst (extract_text fitz_open Presentation Document b ext) = [c] /\
            In c [CallFitzOpen b; CallPresentation b; CallDocument b].
Proof.
  unfold extract_text.
  destruct (String.eqb ext "pdf");
    [|destruct (String.eqb ext "pptx" || String.eqb ext "ppt");
      [|destruct (String.eqb ext "docx")]]; simpl;
    try (intros _; eexists; split; [reflexivity|simpl; tauto]).
  discriminate.
Qed.

(** A successful upload makes exactly two external calls: one decoder
    call on the uploaded bytes, then one chat completion whose prompt
    carries the first [min 3000 (length text)] characters of the extracted
    text. *)
Theorem upload_success_calls fitz_open Presentation Document chat_completion json_loads
    has_openai_error st filename b t resp st' :
  upload_file fitz_open Presentation Document chat_completion json_loads has_openai_error st filename b =
    ((t, Ok resp), st') ->
  exists c text,
    snd (extract_text fitz_open Presentation Document b (file_extension filename)) =
      Ok text /\
    In c [CallFitzOpen b; CallPresentation b; CallDocument b] /\
    t = [c; CallChatCompletion (substring 0 3000 text)] /\
    String.length (substring 0 3000 text) = Nat.min 3000 (String.length text) /\
    exists rest, text = (substring 0 3000 text ++ rest)%string.
Proof.
  unfold upload_file.
  destruct (supported (file_extension filename)) eqn:Es; cbn [negb]; [|discriminate].
  destruct (extract_text fitz_open Presentation Document b (file_extension filename))
    as [t1 [text|e1]] eqn:Ex; [|discriminate].
  destruct (generate_exam_questions chat_completion json_loads has_openai_error text)
    as [t2 [qs|e2]] eqn:Eg; [|discriminate].
  intros H; injection H as <- _ _.
  destruct (extract_text_ok_trace fitz_open Presentation Document b
              (file_extension filename) text) as [c [Hc Hin]]; [rewrite Ex; reflexivity|].
  rewrite Ex in Hc; cbn [fst] in Hc; subst t1.
  unfold generate_exam_questions in Eg; injection Eg as <- _.
  exists c, text; split; [reflexivity|]; split; [exact Hin|]; split; [reflexivity|].
  apply substring_prefix.
Qed.

Lemma upload_success_calls_witness :
  fst (fst (upload_file one_page_pdf no_decoder no_decoder reply_one_question parse_reply true
      st_other_file "notes.v2.PDF" [])) =
    [CallFitzOpen []; CallChatCompletion (substring 0 3000 "Two plus two is four.")] /\
  String.length (substring 0 3000 "Two plus two is four.") =
    Nat.min 3000 (String.length "Two plus two is four.").
Proof.
  assert (H : upload_file one_page_pdf no_decoder no_decoder reply_one_question parse_reply true
      st_other_file "notes.v2.PDF" [] =
              ((fst (fst (upload_file one_page_pdf no_decoder no_decoder reply_one_question parse_reply true
      st_other_file "notes.v2.PDF" [])),
                Ok (JObj [("filename", JStr "notes.v2.PDF"); ("questions", qset_one);
                          ("message", JStr "File processed successfully")])),
               snd (upload_file one_page_pdf no_decoder no_decoder reply_one_question parse_reply true
      st_other_file "notes.v2.PDF" []))) by (vm_compute; reflexivity).
  destruct (upload_success_calls _ _ _ _ _ _ _ _ _ _ _ _ H)
    as [c [text [Hx [_ [Ht [Hl _]]]]]].
  vm_compute in Hx; injection Hx as <-.
  rewrite Ht; vm_compute in Ht; injection Ht as <-.
  split; [reflexivity|exact Hl].
Defined.

(** ** File extensions *)

Lemma list_ascii_of_string_app s1 s2 :
  list_ascii_of_string (s1 ++ s2) = list_ascii_of_string s1 ++ list_ascii_of_string s2.
Proof. induction s1 as [|c s1 IH]; simpl; [reflexivity|rewrite IH; reflexivity]. Qed.

Lemma last_segment_no_dot l cur :
  ~ In "."%char l -> last_segment l cur = cur ++ l.
Proof.
  revert cur; induction l as [|c l IH]; intros cur Hn; simpl; [rewrite app_nil_r; reflexivity|].
  destruct (Ascii.eqb_spec c ".") as [->|Hc]; [exfalso; apply Hn; left; reflexivity|].
  rewrite IH, <- app_assoc by (intros Hin; apply Hn; right; exact Hin); reflexivity.
Qed.

Lemma last_segment_dot pre l cur :
  ~ In "."%char l -> last_segment (pre ++ "."%char :: l) cur = l.
Proof.
  revert cur; induction pre as [|c pre IH]; intros cur Hn; simpl.
  - rewrite last_segment_no_dot by exact Hn; reflexivity.
  - destruct (Ascii.eqb c "."); apply IH, Hn.
Qed.

(** The extension [upload_file] checks is the lower-cased text after the
    last dot of the filename, and the whole lower-cased filename when it
    has no dot. *)
Theorem file_extension_after_last_dot pre ext :
  ~ In "."%char (list_ascii_of_string ext) ->
  file_extension (pre ++ "." ++ ext) = lower ext /\ file_extension ext = lower ext.
Proof.
  intros Hn; unfold file_extension; split.
  - rewrite list_ascii_of_string_app; simpl.
    rewrite last_segment_dot, string_of_list_ascii_of_string by exact Hn; reflexivity.
  - rewrite last_segment_no_dot by exact Hn; cbn [app].
    rewrite string_of_list_ascii_of_string; reflexivity.
Qed.

Lemma file_extension_after_last_dot_witness :
  ~ In "."%char (list_ascii_of_string "PDF") /\
  file_extension ("notes.v2" ++ "." ++ "PDF") = "pdf" /\ file_extension "PDF" = "pdf".
Proof.
  assert (Hn : ~ In "."%char (list_ascii_of_string "PDF"))
    by (simpl; intros [H|[H|[H|[]]]]; discriminate H).
  split; [exact Hn|].
  exact (file_extension_after_last_dot "notes.v2" "PDF" Hn).
Defined.

(** ** The math solver *)

Lemma replace_caret_no_caret l : ~ In "^"%char (replace_caret l).
Proof.
  induction l as [|c l IH]; simpl; [tauto|].
  destruct (Ascii.eqb_spec c "^") as [->|Hc]; simpl.
  - intros [H|[H|H]]; [discriminate|discriminate|exact (IH H)].
  - intros [H|H]; [congruence|exact (IH H)].
Qed.

Lemma lstrip_list_incl l : incl (lstrip_list l) l.
Proof.
  induction l as [|c l IH]; simpl; [apply incl_refl|].
  destruct (is_space c); [apply incl_tl, IH|apply incl_refl].
Qed.

Lemma strip_incl s : incl (list_ascii_of_string (strip s)) (list_ascii_of_string s).
Proof.
  unfold strip; rewrite list_ascii_of_string_of_list_ascii.
  intros c H; apply in_rev in H; apply lstrip_list_incl in H; apply in_rev in H.
  apply lstrip_list_incl in H; exact H.
Qed.

(** The problem handed to SymPy never contains a caret: every [^] has
    been rewritten to [**]. *)
Theorem preprocess_no_caret problem :
  ~ In "^"%char (list_ascii_of_string (preprocess problem)).
Proof.
  unfold preprocess; intros H; apply strip_incl in H.
  rewrite list_ascii_of_string_of_list_ascii in H.
  exact (replace_caret_no_caret _ H).
Qed.

(** [POST /solve-math/] succeeds exactly when parsing, solving and
    pretty-printing the preprocessed problem all succeed, and then answers
    with that problem, the solution and the steps; otherwise it fails with
    status 400 and the detail ["Could not solve " ++ problem], without the
    exception's own message. *)
Theorem math_solver_outcomes Expr Solution parse_expr sp_solve sp_pretty str_solution
    str_exn problem :
  (forall r,
     math_solver Expr Solution parse_expr sp_solve sp_pretty str_solution str_exn problem =
       Ok r <->
     exists expr solution steps,
       parse_expr (preprocess problem) = Ok expr /\ sp_solve expr = Ok solution /\
       sp_pretty solution = Ok steps /\
       r = JObj [("problem", JStr (preprocess problem));
                 ("solution", JStr (str_solution solution)); ("steps", JStr steps)]) /\
  (forall e,
     math_solver Expr Solution parse_expr sp_solve sp_pretty str_solution str_exn problem =
       Raise e ->
     e = HTTPException 400 ("Could not solve " ++ preprocess problem)).
Proof.
  unfold math_solver, solve_math_problem; cbv zeta.
  generalize (preprocess problem); intros p.
  destruct (parse_expr p) as [expr|e1] eqn:E1; cbn [bind].
  2:{ split; [intros r; split; [discriminate|intros [? [? [? [Hx _]]]]; discriminate]|].
      intros e H; injection H as <-; reflexivity. }
  destruct (sp_solve expr) as [sol|e2] eqn:E2; cbn [bind].
  2:{ split; [intros r; split; [discriminate|intros [? [? [? [Hx [Hy _]]]]]; congruence]|].
      intros e H; injection H as <-; reflexivity. }
  destruct (sp_pretty sol) as [steps|e3] eqn:E3; cbn [bind].
  2:{ split; [intros r; split; [discriminate|intros [? [? [? [Hx [Hy [Hz _]]]]]]; congruence]|].
      intros e H; injection H as <-; reflexivity. }
  assert (Hn : forall a b c : json,
             assoc_get "error" [("problem", a); ("solution", b); ("steps", c)] = None)
    by reflexivity.
  rewrite Hn; split; [|intros e H; discriminate].
  intros r; split.
  - intros H; injection H as <-; exists expr, sol, steps; auto.
  - intros [x [y [z [Hx [Hy [Hz ->]]]]]]; congruence.
Qed.
